(** * DadosAbertosBrasil.favoritos

    A shallow embedding of [DadosAbertosBrasil/favoritos.py]: the shortcut
    functions that build resource locators from static tables and forward
    pre-parameterised requests to the time-series modules [bacen] and
    [ipea].

    Python [str] values are kept as their UTF-8 encoding in [string]; two
    [str] values are equal exactly when their encodings are, and one is a
    substring of the other exactly when the encodings are.

    A function of the module is a computation [M]: the list of the calls it
    makes to its collaborators ([bacen.serie], [ipea.serie], [requests],
    [pandas]) and its outcome, a value or an exception.  The answers of the
    collaborators are a parameter, [Mundo].  So are the built-in
    [str.lower] and the resolver [parse.uf], whose module [_utils] is not
    among the sources; [lower_latin1] and the resolver modelled in
    [Module parse] are the instances used to run the functions. *)

From Stdlib Require Import String Ascii List ZArith NArith Bool Lia DecimalString.
From Stdlib Require DecimalZ DecimalPos.
Import ListNotations.
Open Scope string_scope.

(** ** Python built-ins used by the module *)

Module Py.

(** [str(n)] for an [int]: decimal digits, a leading minus sign for
    negatives, no padding. *)
Definition str (n : Z) : string := NilZero.string_of_int (Z.to_int n).

(** An f-string with the single replacement field [{tamanho}]:
    [f'<pre>{tamanho}<pos>']. *)
Definition fstring (pre : string) (tamanho : Z) (pos : string) : string :=
  pre ++ str tamanho ++ pos.

(** [s1 in lista] for a list of strings. *)
Definition in_list (s : string) (lista : list string) : bool :=
  existsb (String.eqb s) lista.

(** [agulha in palha] for strings. *)
Fixpoint contem (agulha palha : string) : bool :=
  prefix agulha palha ||
  match palha with
  | EmptyString => false
  | String _ resto => contem agulha resto
  end.

(** Number of positions of [palha] at which [agulha] starts. *)
Fixpoint ocorrencias (agulha palha : string) : nat :=
  (if prefix agulha palha then 1 else 0) +
  match palha with
  | EmptyString => 0
  | String _ resto => ocorrencias agulha resto
  end.

Definition digito (c : ascii) : bool :=
  let n := N_of_ascii c in ((48 <=? n) && (n <=? 57))%N.

(** The numeric size tokens of a URL: every maximal run of decimal digits
    that is immediately followed by [px]. *)
Fixpoint tokens_px_aux (run : string) (s : string) : list string :=
  match s with
  | EmptyString => []
  | String c resto =>
      if digito c then tokens_px_aux (run ++ String c EmptyString) resto
      else if negb (String.eqb run EmptyString) && prefix "px" s
           then run :: tokens_px_aux EmptyString resto
           else tokens_px_aux EmptyString resto
  end.

Definition tokens_px (s : string) : list string := tokens_px_aux EmptyString s.

(** [str.lower] restricted to Basic Latin and Latin-1 Supplement: [A-Z] and
    U+00C0..U+00DE (without the multiplication sign U+00D7) move up by 32
    code points; in UTF-8 the latter are the two-byte sequences [C3 80] to
    [C3 9E].  The functions below take [str.lower] as a parameter; this
    instance is the one used to run them. *)
Fixpoint lower_latin1 (s : string) : string :=
  match s with
  | EmptyString => EmptyString
  | String c r =>
      let n := N_of_ascii c in
      if ((65 <=? n) && (n <=? 90))%N
      then String (ascii_of_N (n + 32)) (lower_latin1 r)
      else if (n =? 195)%N then
        match r with
        | EmptyString => String c EmptyString
        | String d r' =>
            let m := N_of_ascii d in
            if ((128 <=? m) && (m <=? 158) && negb (m =? 151))%N
            then String c (String (ascii_of_N (m + 32)) (lower_latin1 r'))
            else String c (String d (lower_latin1 r'))
        end
      else String c (lower_latin1 r)
  end.

(** Exceptions that leave the module.  [DAB_UFError] is the resolver's
    invalid-identifier error, [ValueError] the invalid-option error,
    [KeyError] a failed lookup (with the keys that were not found), and
    [ResourceUnavailable] any failure of an external collaborator. *)
Inductive exn : Type :=
| DAB_UFError (entrada : string)
| ValueError (msg : string)
| KeyError (chaves : list string)
| ResourceUnavailable (motivo : string).

Inductive result (A : Type) : Type :=
| Ok (a : A)
| Err (e : exn).
Arguments Ok {A} a.
Arguments Err {A} e.

(** A [dict] literal with string keys, as the list of its items. *)
Definition dict (V : Type) : Type := list (string * V).

Fixpoint dict_get {V : Type} (k : string) (d : dict V) : option V :=
  match d with
  | [] => None
  | (k', v) :: d' => if String.eqb k k' then Some v else dict_get k d'
  end.

Definition keys {V : Type} (d : dict V) : list string := map fst d.

(** [d[k]]: the value, or [KeyError(k)]. *)
Definition getitem {V : Type} (d : dict V) (k : string) : result V :=
  match dict_get k d with
  | Some v => Ok v
  | None => Err (KeyError [k])
  end.

End Py.
Import Py.

(** ** The state identifier resolver, [_utils.parse] *)

Module parse.

(** Modelled from the spec: the normalisation step of the resolver
    [parse.uf], whose module [_utils] is not part of the sources.  It makes
    the match case-insensitive and diacritic-insensitive: letters are
    lower-cased and the accented Latin-1 letters lose their diacritic. *)
Definition sem_acento (m : N) : option ascii :=
  let b := (if 160 <=? m then m - 32 else m)%N in
  if ((128 <=? b) && (b <=? 133))%N then Some "a"%char
  else if (b =? 135)%N then Some "c"%char
  else if ((136 <=? b) && (b <=? 139))%N then Some "e"%char
  else if ((140 <=? b) && (b <=? 143))%N then Some "i"%char
  else if (b =? 145)%N then Some "n"%char
  else if ((146 <=? b) && (b <=? 150))%N then Some "o"%char
  else if ((153 <=? b) && (b <=? 156))%N then Some "u"%char
  else if (b =? 157)%N then Some "y"%char
  else None.

(** Modelled from the spec: normalisation of a state reference (see
    [sem_acento]); part of the absent [parse.uf]. *)
Fixpoint normaliza (s : string) : string :=
  match s with
  | EmptyString => EmptyString
  | String c r =>
      let n := N_of_ascii c in
      if ((65 <=? n) && (n <=? 90))%N
      then String (ascii_of_N (n + 32)) (normaliza r)
      else if (n =? 195)%N then
        match r with
        | EmptyString => String c EmptyString
        | String d r' =>
            match sem_acento (N_of_ascii d) with
            | Some l => String l (normaliza r')
            | None => String c (String d (normaliza r'))
            end
        end
      else String c (normaliza r)
  end.

(** Modelled from the spec: the entries the absent [parse.uf] accepts
    without [extintos]: the canonical two-letter codes (the country
    pseudo-code [BR] included) and the full state names, each with its
    canonical code. *)
Definition UFS : dict string := [
    ("BR", "BR"); ("Brasil", "BR");
    ("AC", "AC"); ("Acre", "AC");
    ("AL", "AL"); ("Alagoas", "AL");
    ("AP", "AP"); ("Amapá", "AP");
    ("AM", "AM"); ("Amazonas", "AM");
    ("BA", "BA"); ("Bahia", "BA");
    ("CE", "CE"); ("Ceará", "CE");
    ("DF", "DF"); ("Distrito Federal", "DF");
    ("ES", "ES"); ("Espírito Santo", "ES");
    ("GO", "GO"); ("Goiás", "GO");
    ("MA", "MA"); ("Maranhão", "MA");
    ("MT", "MT"); ("Mato Grosso", "MT");
    ("MS", "MS"); ("Mato Grosso do Sul", "MS");
    ("MG", "MG"); ("Minas Gerais", "MG");
    ("PA", "PA"); ("Pará", "PA");
    ("PB", "PB"); ("Paraíba", "PB");
    ("PR", "PR"); ("Paraná", "PR");
    ("PE", "PE"); ("Pernambuco", "PE");
    ("PI", "PI"); ("Piauí", "PI");
    ("RJ", "RJ"); ("Rio de Janeiro", "RJ");
    ("RN", "RN"); ("Rio Grande do Norte", "RN");
    ("RS", "RS"); ("Rio Grande do Sul", "RS");
    ("RO", "RO"); ("Rondônia", "RO");
    ("RR", "RR"); ("Roraima", "RR");
    ("SC", "SC"); ("Santa Catarina", "SC");
    ("SP", "SP"); ("São Paulo", "SP");
    ("SE", "SE"); ("Sergipe", "SE");
    ("TO", "TO"); ("Tocantins", "TO")
  ].

(** Modelled from the spec: the two historical codes and names the absent
    [parse.uf] accepts only when extinct states are permitted. *)
Definition EXTINTOS : dict string := [
    ("FN", "FN"); ("Fernando de Noronha", "FN");
    ("GB", "GB"); ("Guanabara", "GB")
  ].

(** Modelled from the spec: the resolver [parse.uf(uf, extintos=False)],
    absent from the sources.  The input and the accepted entries are both
    normalised and compared exactly; an input that matches no permitted
    entry fails with the invalid-identifier error, which names it. *)
Definition uf (entrada : string) (extintos : bool) : result string :=
  let permitidos := (if extintos then UFS ++ EXTINTOS else UFS)%list in
  match dict_get (normaliza entrada)
                 (map (fun kv => (normaliza (fst kv), snd kv)) permitidos) with
  | Some sigla => Ok sigla
  | None => Err (DAB_UFError entrada)
  end.

End parse.

(** ** External collaborators and the effect of calling them *)

Section Colaboradores.

(** Values this module never inspects: the cells of a table, the values in
    an option bag, a parsed JSON document. *)
Variable pyobj : Type.

(** [**kwargs]: the caller's option bag. *)
Definition kwargs : Type := dict pyobj.

(** A [pandas.DataFrame], as its columns in order: label and cells. *)
Definition DataFrame : Type := list (string * list pyobj).

Definition columns (df : DataFrame) : list string := map fst df.

(** One call to an external collaborator, with the arguments it receives. *)
Inductive chamada : Type :=
| BacenSerie (cod : Z) (kw : kwargs)
| IpeaSerie (cod : string) (index : bool)
| RequestsGetJson (url : string)
| PdReadCsv (url : string) (encoding sep : option string)
| PdReadJson (url : string).

(** What the collaborators answer: a value, or an exception. *)
Record Mundo : Type := {
  bacen_resp : Z -> kwargs -> result DataFrame;
  ipea_resp : string -> bool -> result DataFrame;
  get_json_resp : string -> result pyobj;
  read_csv_resp : string -> option string -> option string -> result DataFrame;
  read_json_resp : string -> result DataFrame
}.

(** A computation: the collaborator calls it made, in order, and its
    outcome. *)
Definition M (A : Type) : Type := (list chamada * result A)%type.

Definition ret {A : Type} (a : A) : M A := ([], Ok a).

Definition raise {A : Type} (e : exn) : M A := ([], Err e).

Definition lift {A : Type} (r : result A) : M A := ([], r).

Definition bind {A B : Type} (m : M A) (f : A -> M B) : M B :=
  match m with
  | (t, Ok a) => let (t', r) := f a in ((t ++ t')%list, r)
  | (t, Err e) => (t, Err e)
  end.

Definition chamadas {A : Type} (m : M A) : list chamada := fst m.

Definition resultado {A : Type} (m : M A) : result A := snd m.

End Colaboradores.

Arguments BacenSerie {pyobj} cod kw.
Arguments IpeaSerie {pyobj} cod index.
Arguments RequestsGetJson {pyobj} url.
Arguments PdReadCsv {pyobj} url encoding sep.
Arguments PdReadJson {pyobj} url.
Arguments bacen_resp {pyobj} m _ _.
Arguments ipea_resp {pyobj} m _ _.
Arguments get_json_resp {pyobj} m _.
Arguments read_csv_resp {pyobj} m _ _ _.
Arguments read_json_resp {pyobj} m _.
Arguments ret {pyobj A} a.
Arguments raise {pyobj A} e.
Arguments lift {pyobj A} r.
Arguments bind {pyobj A B} m f.
Arguments chamadas {pyobj A} m.
Arguments resultado {pyobj A} m.
Arguments columns {pyobj} df.

Notation "x <- c ;; k" := (bind c (fun x => k))
  (at level 61, c at next level, right associativity).

Module bacen.
(** [bacen.serie(cod, **kwargs)]. *)
Definition serie {pyobj : Type} (w : Mundo pyobj) (cod : Z)
    (kw : kwargs pyobj) : M pyobj (DataFrame pyobj) :=
  ([BacenSerie cod kw], bacen_resp w cod kw).
End bacen.

Module ipea.
(** [ipea.serie(cod=..., index=...)]. *)
Definition serie {pyobj : Type} (w : Mundo pyobj) (cod : string)
    (index : bool) : M pyobj (DataFrame pyobj) :=
  ([IpeaSerie cod index], ipea_resp w cod index).
End ipea.

Module requests.
(** [requests.get(url).json()]. *)
Definition get_json {pyobj : Type} (w : Mundo pyobj) (url : string)
    : M pyobj pyobj :=
  ([RequestsGetJson url], get_json_resp w url).
End requests.

Module _pd.
(** [pandas.read_csv(url, encoding=..., sep=...)]. *)
Definition read_csv {pyobj : Type} (w : Mundo pyobj) (url : string)
    (encoding sep : option string) : M pyobj (DataFrame pyobj) :=
  ([PdReadCsv url encoding sep], read_csv_resp w url encoding sep).

(** [pandas.read_json(url)]. *)
Definition read_json {pyobj : Type} (w : Mundo pyobj) (url : string)
    : M pyobj (DataFrame pyobj) :=
  ([PdReadJson url], read_json_resp w url).

(** [df[rotulos]] with a list of labels: the columns carrying each label,
    in the order of the list; [KeyError] with the labels that no column
    carries. *)
Definition getitem_cols {pyobj : Type} (df : DataFrame pyobj)
    (rotulos : list string) : result (DataFrame pyobj) :=
  match filter (fun r => negb (in_list r (columns df))) rotulos with
  | [] => Ok (flat_map
                (fun r => filter (fun col => String.eqb (fst col) r) df)
                rotulos)
  | faltam => Err (KeyError faltam)
  end.
End _pd.

(** ** The module [favoritos] *)

Section Favoritos.

Variable pyobj : Type.

(** The built-in [str.lower]. *)
Variable lower : string -> string.

(** The resolver [parse.uf] of [_utils], called as [parse.uf(uf)] and
    [parse.uf(uf, extintos=True)]. *)
Variable parse_uf : string -> bool -> result string.

(** The collaborators' answers. *)
Variable w : Mundo pyobj.

Definition catalogo : M pyobj (DataFrame pyobj) :=
  let URL := "https://raw.githubusercontent.com/dadosgovbr/catalogos-dados-brasil/master/dados/catalogos.csv" in
  _pd.read_csv w URL None None.

(** The [mapping] table of [geojson]. *)
Definition mapping : dict Z := [
    ("BR", 100);
    ("AC", 12);
    ("AM", 13);
    ("AP", 16);
    ("PA", 15);
    ("RO", 11);
    ("RR", 14);
    ("TO", 17);
    ("AL", 27);
    ("BA", 29);
    ("CE", 23);
    ("MA", 21);
    ("PB", 25);
    ("PE", 26);
    ("PI", 22);
    ("RN", 24);
    ("SE", 28);
    ("ES", 32);
    ("MG", 31);
    ("RJ", 33);
    ("SP", 35);
    ("PR", 41);
    ("RS", 43);
    ("SC", 42);
    ("DF", 53);
    ("GO", 52);
    ("MT", 51);
    ("MS", 50)
  ]%Z.

Definition geojson_url (n : Z) : string :=
  fstring "https://raw.githubusercontent.com/tbrugz/geodata-br/master/geojson/geojs-" n "-mun.json".

Definition geojson (uf : string) : M pyobj pyobj :=
  uf <- lift (parse_uf uf false) ;;
  n <- lift (getitem mapping uf) ;;
  let url := geojson_url n in
  requests.get_json w url.

(** The local [URL] of [codigos_municipios]. *)
Definition URL_municipios : string :=
  "https://raw.githubusercontent.com/betafcc/Municipios-Brasileiros-TSE/master/municipios_brasileiros_tse.json".

Definition codigos_municipios : M pyobj (DataFrame pyobj) :=
  df <- _pd.read_json w URL_municipios ;;
  lift (_pd.getitem_cols df
          ["codigo_tse"; "codigo_ibge"; "nome_municipio"; "uf"; "capital"]).

Definition perfil_eleitorado : M pyobj (DataFrame pyobj) :=
  _pd.read_csv w
    "https://raw.githubusercontent.com/GusFurtado/DadosAbertosBrasil/master/data/Eleitorado.csv"
    (Some "latin-1") (Some ";").

Definition URL : string := "https://upload.wikimedia.org/wikipedia/commons/thumb/".

(** The table [bandeira] built inside the function of the same name. *)
Definition bandeira_tabela (tamanho : Z) : dict string := [
    ("BR", fstring "0/05/Flag_of_Brazil.svg/" tamanho "px-Flag_of_Brazil.svg.png");
    ("AC", fstring "4/4c/Bandeira_do_Acre.svg/" tamanho "px-Bandeira_do_Acre.svg.png");
    ("AM", fstring "6/6b/Bandeira_do_Amazonas.svg/" tamanho "px-Bandeira_do_Amazonas.svg.png");
    ("AL", fstring "8/88/Bandeira_de_Alagoas.svg/" tamanho "px-Bandeira_de_Alagoas.svg.png");
    ("AP", fstring "0/0c/Bandeira_do_Amap%C3%A1.svg/" tamanho "px-Bandeira_do_Amap%C3%A1.svg.png");
    ("BA", fstring "2/28/Bandeira_da_Bahia.svg/" tamanho "px-Bandeira_da_Bahia.svg.png");
    ("CE", fstring "2/2e/Bandeira_do_Cear%C3%A1.svg/" tamanho "px-Bandeira_do_Cear%C3%A1.svg.png");
    ("DF", fstring "3/3c/Bandeira_do_Distrito_Federal_%28Brasil%29.svg/" tamanho "px-Bandeira_do_Distrito_Federal_%28Brasil%29.svg.png");
    ("ES", fstring "4/43/Bandeira_do_Esp%C3%ADrito_Santo.svg/" tamanho "px-Bandeira_do_Esp%C3%ADrito_Santo.svg.png");
    ("GO", fstring "b/be/Flag_of_Goi%C3%A1s.svg/" tamanho "px-Flag_of_Goi%C3%A1s.svg.png");
    ("MA", fstring "4/45/Bandeira_do_Maranh%C3%A3o.svg/" tamanho "px-Bandeira_do_Maranh%C3%A3o.svg.png");
    ("MG", fstring "f/f4/Bandeira_de_Minas_Gerais.svg/" tamanho "px-Bandeira_de_Minas_Gerais.svg.png");
    ("MT", fstring "0/0b/Bandeira_de_Mato_Grosso.svg/" tamanho "px-Bandeira_de_Mato_Grosso.svg.png");
    ("MS", fstring "6/64/Bandeira_de_Mato_Grosso_do_Sul.svg/" tamanho "px-Bandeira_de_Mato_Grosso_do_Sul.svg.png");
    ("PA", fstring "0/02/Bandeira_do_Par%C3%A1.svg/" tamanho "px-Bandeira_do_Par%C3%A1.svg.png");
    ("PB", fstring "b/bb/Bandeira_da_Para%C3%ADba.svg/" tamanho "px-Bandeira_da_Para%C3%ADba.svg.png");
    ("PE", fstring "5/59/Bandeira_de_Pernambuco.svg/" tamanho "px-Bandeira_de_Pernambuco.svg.png");
    ("PI", fstring "3/33/Bandeira_do_Piau%C3%AD.svg/" tamanho "px-Bandeira_do_Piau%C3%AD.svg.png");
    ("PR", fstring "9/93/Bandeira_do_Paran%C3%A1.svg/" tamanho "px-Bandeira_do_Paran%C3%A1.svg.png");
    ("RJ", fstring "7/73/Bandeira_do_estado_do_Rio_de_Janeiro.svg/" tamanho "px-Bandeira_do_estado_do_Rio_de_Janeiro.svg.png");
    ("RO", fstring "f/fa/Bandeira_de_Rond%C3%B4nia.svg/" tamanho "px-Bandeira_de_Rond%C3%B4nia.svg.png");
    ("RN", fstring "3/30/Bandeira_do_Rio_Grande_do_Norte.svg/" tamanho "px-Bandeira_do_Rio_Grande_do_Norte.svg.png");
    ("RR", fstring "9/98/Bandeira_de_Roraima.svg/" tamanho "px-Bandeira_de_Roraima.svg.png");
    ("RS", fstring "6/63/Bandeira_do_Rio_Grande_do_Sul.svg/" tamanho "px-Bandeira_do_Rio_Grande_do_Sul.svg.png");
    ("SC", fstring "1/1a/Bandeira_de_Santa_Catarina.svg/" tamanho "px-Bandeira_de_Santa_Catarina.svg.png");
    ("SE", fstring "b/be/Bandeira_de_Sergipe.svg/" tamanho "px-Bandeira_de_Sergipe.svg.png");
    ("SP", fstring "2/2b/Bandeira_do_estado_de_S%C3%A3o_Paulo.svg/" tamanho "px-Bandeira_do_estado_de_S%C3%A3o_Paulo.svg.png");
    ("TO", fstring "f/ff/Bandeira_do_Tocantins.svg/" tamanho "px-Bandeira_do_Tocantins.svg.png");
    (* Extintos *)
    ("FN", fstring "3/3b/Fernando_de_Noronha%2C_PE_-_Bandeira.svg/" tamanho "px-Fernando_de_Noronha%2C_PE_-_Bandeira.svg.png");
    ("GB", fstring "c/c3/Bandeira_do_Estado_da_Guanabara_%281960%E2%80%931975%29.png/" tamanho "px-Bandeira_do_Estado_da_Guanabara_%281960%E2%80%931975%29.png")
  ].

Definition bandeira (uf : string) (tamanho : Z) : M pyobj string :=
  sigla <- lift (parse_uf uf true) ;;
  fragmento <- lift (getitem (bandeira_tabela tamanho) sigla) ;;
  ret (URL ++ fragmento).

(** The table [brasao] built inside the function of the same name. *)
Definition brasao_tabela (tamanho : Z) : dict string := [
    ("BR", fstring "b/bf/Coat_of_arms_of_Brazil.svg/" tamanho "px-Coat_of_arms_of_Brazil.svg.png");
    ("AC", fstring "5/52/Brasão_do_Acre.svg/" tamanho "px-Brasão_do_Acre.svg.png");
    ("AM", fstring "2/2c/Bras%C3%A3o_do_Amazonas.svg/" tamanho "px-Bras%C3%A3o_do_Amazonas.svg.png");
    ("AL", fstring "5/5c/Bras%C3%A3o_do_Estado_de_Alagoas.svg/" tamanho "px-Bras%C3%A3o_do_Estado_de_Alagoas.svg.png");
    ("AP", fstring "6/63/Bras%C3%A3o_do_Amap%C3%A1.svg/" tamanho "px-Bras%C3%A3o_do_Amap%C3%A1.svg.png");
    ("BA", fstring "1/12/Bras%C3%A3o_do_estado_da_Bahia.svg/" tamanho "px-Bras%C3%A3o_do_estado_da_Bahia.svg.png");
    ("CE", fstring "f/fe/Bras%C3%A3o_do_Cear%C3%A1.svg/" tamanho "px-Bras%C3%A3o_do_Cear%C3%A1.svg.png");
    ("DF", fstring "e/e0/Bras%C3%A3o_do_Distrito_Federal_%28Brasil%29.svg/" tamanho "px-Bras%C3%A3o_do_Distrito_Federal_%28Brasil%29.svg.png");
    ("ES", fstring "a/a0/Bras%C3%A3o_do_Esp%C3%ADrito_Santo.svg/" tamanho "px-Bras%C3%A3o_do_Esp%C3%ADrito_Santo.svg.png");
    ("GO", fstring "b/bf/Bras%C3%A3o_de_Goi%C3%A1s.svg/" tamanho "px-Bras%C3%A3o_de_Goi%C3%A1s.svg.png");
    ("MA", fstring "a/ab/Brasão_do_Maranhão.svg/" tamanho "px-Brasão_do_Maranhão.svg.png");
    ("MG", fstring "d/d2/Brasão_de_Minas_Gerais.svg/" tamanho "px-Brasão_de_Minas_Gerais.svg.png");
    ("MT", fstring "0/04/Brasão_de_Mato_Grosso.png/" tamanho "px-Brasão_de_Mato_Grosso.png");
    ("MS", fstring "f/fa/Brasão_de_Mato_Grosso_do_Sul.svg/" tamanho "px-Brasão_de_Mato_Grosso_do_Sul.svg.png");
    ("PA", fstring "b/bc/Brasão_do_Pará.svg/" tamanho "px-Brasão_do_Pará.svg.png");
    ("PB", fstring "f/fd/Brasão_da_Paraíba.svg/" tamanho "px-Brasão_da_Paraíba.svg.png");
    ("PE", fstring "0/04/Brasão_do_estado_de_Pernambuco.svg/" tamanho "px-Brasão_do_estado_de_Pernambuco.svg.png");
    ("PI", fstring "a/ad/Brasão_do_Piauí.svg/" tamanho "px-Brasão_do_Piauí.svg.png");
    ("PR", fstring "4/49/Brasão_do_Paraná.svg/" tamanho "px-Brasão_do_Paraná.svg.png");
    ("RJ", fstring "5/5b/Brasão_do_estado_do_Rio_de_Janeiro.svg/" tamanho "px-Brasão_do_estado_do_Rio_de_Janeiro.svg.png");
    ("RO", fstring "f/f1/Brasão_de_Rondônia.svg/" tamanho "px-Brasão_de_Rondônia.svg.png");
    ("RN", fstring "2/26/Brasão_do_Rio_Grande_do_Norte.svg/" tamanho "px-Brasão_do_Rio_Grande_do_Norte.svg.png");
    ("RR", fstring "e/ed/Brasão_de_Roraima.svg/" tamanho "px-Brasão_de_Roraima.svg.png");
    ("RS", fstring "3/38/Brasão_do_Rio_Grande_do_Sul.svg/" tamanho "px-Brasão_do_Rio_Grande_do_Sul.svg.png");
    ("SC", fstring "6/65/Brasão_de_Santa_Catarina.svg/" tamanho "px-Brasão_de_Santa_Catarina.svg.png");
    ("SE", fstring "5/52/Brasão_de_Sergipe.svg/" tamanho "px-Brasão_de_Sergipe.svg.png");
    ("SP", fstring "1/1a/Brasão_do_estado_de_São_Paulo.svg/" tamanho "px-Brasão_do_estado_de_São_Paulo.svg.png");
    ("TO", fstring "c/cc/Brasão_do_Tocantins.svg/" tamanho "px-Brasão_do_Tocantins.svg.png");
    (* Extintos *)
    ("FN", fstring "5/5a/Fernando_de_Noronha%2C_PE_-_Bras%C3%A3o.svg/" tamanho "px-Fernando_de_Noronha%2C_PE_-_Bras%C3%A3o.svg.png");
    ("GB", fstring "c/cf/Bras%C3%A3o_do_Estado_da_Guanabara_%281960%E2%80%931975%29.png/" tamanho "px-Bras%C3%A3o_do_Estado_da_Guanabara_%281960%E2%80%931975%29.png")
  ].

Definition brasao (uf : string) (tamanho : Z) : M pyobj string :=
  sigla <- lift (parse_uf uf true) ;;
  fragmento <- lift (getitem (brasao_tabela tamanho) sigla) ;;
  ret (URL ++ fragmento).

(** *** Time series of the central bank *)

Definition ipca (kw : kwargs pyobj) : M pyobj (DataFrame pyobj) :=
  bacen.serie w 433 kw.

Definition selic (kw : kwargs pyobj) : M pyobj (DataFrame pyobj) :=
  bacen.serie w 432 kw.

Definition taxa_referencial (kw : kwargs pyobj) : M pyobj (DataFrame pyobj) :=
  bacen.serie w 226 kw.

Definition rentabilidade_poupanca (kw : kwargs pyobj)
    : M pyobj (DataFrame pyobj) :=
  bacen.serie w 195 kw.

Definition DIARIOS : list string := ["diaria"; "diario"; "diário"; "diária"].

Definition reservas_msg : string :=
  "Período inválido. Escolha um dos seguintes valores: 'mensal' ou 'diaria'.".

Definition reservas_internacionais (periodo : string) (kw : kwargs pyobj)
    : M pyobj (DataFrame pyobj) :=
  if String.eqb (lower periodo) "mensal" then bacen.serie w 3546 kw
  else if in_list (lower periodo) DIARIOS then bacen.serie w 13621 kw
  else raise (ValueError reservas_msg).

(** *** Time series of Ipeadata *)

Definition risco_brasil (index : bool) : M pyobj (DataFrame pyobj) :=
  ipea.serie w "JPM366_EMBI366" index.

Definition salario_msg : string :=
  "Tipo inválido. Escolha um dos seguintes valores: 'nominal', 'real' ou 'ppc'.".

Definition salario_minimo (tipo : string) (index : bool)
    : M pyobj (DataFrame pyobj) :=
  if String.eqb (lower tipo) "nominal" then ipea.serie w "MTE12_SALMIN12" index
  else if String.eqb (lower tipo) "real" then ipea.serie w "GAC12_SALMINRE12" index
  else if String.eqb (lower tipo) "ppc" then ipea.serie w "GAC12_SALMINDOL12" index
  else raise (ValueError salario_msg).

End Favoritos.

Arguments catalogo {pyobj} w.
Arguments geojson {pyobj} parse_uf w uf.
Arguments codigos_municipios {pyobj} w.
Arguments perfil_eleitorado {pyobj} w.
Arguments ipca {pyobj} w kw.
Arguments selic {pyobj} w kw.
Arguments taxa_referencial {pyobj} w kw.
Arguments rentabilidade_poupanca {pyobj} w kw.
Arguments reservas_internacionais {pyobj} lower w periodo kw.
Arguments risco_brasil {pyobj} w index.
Arguments salario_minimo {pyobj} lower w tipo index.

Arguments fstring : simpl never.

(** ** Auxiliary definitions for the statements *)

(** [s.count(c)] for a single character. *)
Fixpoint conta (c : ascii) (s : string) : nat :=
  match s with
  | EmptyString => 0
  | String a r => (if Ascii.eqb a c then 1 else 0) + conta c r
  end.

(** [s.find(c)] for a single character, [None] where Python gives -1. *)
Fixpoint acha (c : ascii) (s : string) : option nat :=
  match s with
  | EmptyString => None
  | String a r => if Ascii.eqb a c then Some 0 else option_map S (acha c r)
  end.

(** The part of a fragment up to and including the slash that has [n]
    slashes before it. *)
Fixpoint ate_barra (n : nat) (s : string) : string :=
  match s with
  | EmptyString => EmptyString
  | String a r =>
      if Ascii.eqb a "/" then
        match n with
        | O => String a EmptyString
        | S n' => String a (ate_barra n' r)
        end
      else String a (ate_barra n r)
  end.

(** The directory and file name of a table fragment: what precedes the
    size, up to the third slash. *)
Definition raiz (fragmento : string) : string := ate_barra 2 fragmento.

(** A message lists the given values when each occurs in it between single
    quotes. *)
Definition lista_valores (valores : list string) (msg : string) : bool :=
  forallb (fun v => contem ("'" ++ v ++ "'") msg) valores.

Fixpoint nodupb (l : list string) : bool :=
  match l with
  | [] => true
  | x :: r => negb (in_list x r) && nodupb r
  end.

(** Entries of a table that carry the same value carry the same key. *)
Definition chave_por_valor (d : dict string) : bool :=
  forallb (fun e1 =>
    forallb (fun e2 =>
      String.eqb (fst e1) (fst e2) || negb (String.eqb (snd e1) (snd e2))) d) d.

(** Shape of an image-table fragment: the size and [px] between two
    literal parts without an [x]. *)
Definition forma (tamanho : Z) (fragmento : string) : Prop :=
  exists pre pos : string,
    fragmento = fstring pre tamanho ("px" ++ pos) /\
    conta "x" pre = 0 /\ conta "x" pos = 0.

(** Each table entry reduced to its key and the [raiz] of its fragment. *)
Definition raizes (d : dict string) : dict string :=
  map (fun kv => (fst kv, raiz (snd kv))) d.

(** The spellings [reservas_internacionais] accepts, once lower-cased. *)
Definition periodos_aceitos : list string := "mensal" :: DIARIOS.

(** The spellings [salario_minimo] accepts, once lower-cased. *)
Definition tipos_aceitos : list string := ["nominal"; "real"; "ppc"].

(** The labels [codigos_municipios] keeps. *)
Definition colunas_municipios : list string :=
  ["codigo_tse"; "codigo_ibge"; "nome_municipio"; "uf"; "capital"].

(** The extinct codes, marked [# Extintos] in both image tables. *)
Definition siglas_extintas : list string := ["FN"; "GB"].

(** The thirty state codes: the keys of [mapping] and the extinct codes. *)
Definition siglas_validas : list string :=
  (keys mapping ++ siglas_extintas)%list.

(** *** Sample collaborators, to run the functions *)

(** An upstream municipality table with the five columns out of order and
    two more. *)
Definition tabela_tse : DataFrame string := [
    ("uf", ["AC"; "AC"]);
    ("codigo_ibge", ["1200013"; "1200054"]);
    ("regiao", ["N"; "N"]);
    ("codigo_tse", ["1120"; "1570"]);
    ("capital", ["0"; "0"]);
    ("nome_municipio", ["ACRELÂNDIA"; "ASSIS BRASIL"]);
    ("populacao", ["15256"; "7417"])
  ].

(** An upstream municipality table without the column [capital]. *)
Definition tabela_sem_capital : DataFrame string := [
    ("codigo_tse", ["1120"]);
    ("codigo_ibge", ["1200013"]);
    ("nome_municipio", ["ACRELÂNDIA"]);
    ("uf", ["AC"])
  ].

Definition mundo_exemplo : Mundo string := {|
  bacen_resp := fun cod _ => Ok [("valor", [str cod])];
  ipea_resp := fun cod _ => Ok [("valor", [cod])];
  get_json_resp := fun url => Ok url;
  read_csv_resp := fun _ _ _ => Err (ResourceUnavailable "offline");
  read_json_resp := fun _ => Ok tabela_tse
|}.

Definition mundo_sem_capital : Mundo string := {|
  bacen_resp := fun cod _ => Ok [("valor", [str cod])];
  ipea_resp := fun cod _ => Ok [("valor", [cod])];
  get_json_resp := fun url => Ok url;
  read_csv_resp := fun _ _ _ => Err (ResourceUnavailable "offline");
  read_json_resp := fun _ => Ok tabela_sem_capital
|}.

(** *** Further definitions for the statements *)

(** [s.endswith(sufixo)]. *)
Fixpoint termina (sufixo s : string) : bool :=
  String.eqb sufixo s ||
  match s with
  | EmptyString => false
  | String _ r => termina sufixo r
  end.

(** [s.split(sep)] for a separator of one character. *)
Fixpoint divide_aux (sep : ascii) (parte s : string) : list string :=
  match s with
  | EmptyString => [parte]
  | String a r =>
      if Ascii.eqb a sep then parte :: divide_aux sep EmptyString r
      else divide_aux sep (parte ++ String a EmptyString) r
  end.

Definition divide (sep : ascii) (s : string) : list string :=
  divide_aux sep EmptyString s.

(** A thumbnail path of Wikimedia Commons for the size [tamanho]: a
    directory of one character, a directory of two characters that starts
    with it, the file name, and the thumbnail name, which is the size,
    [px-] and the file name again, followed by [.png] when the file is an
    SVG. *)
Definition miniatura (tamanho : Z) (fragmento : string) : Prop :=
  exists h hh arquivo ext : string,
    fragmento = h ++ "/" ++ hh ++ "/" ++ arquivo ++ "/"
                ++ str tamanho ++ "px-" ++ arquivo ++ ext /\
    String.length h = 1 /\ String.length hh = 2 /\ prefix h hh = true /\
    conta "/" arquivo = 0 /\
    ((termina ".svg" arquivo = true /\ ext = ".png") \/
     (termina ".png" arquivo = true /\ ext = EmptyString)).

(** The same entry of a table at two sizes: one pair of literal parts
    around the two sizes. *)
Definition mesmo_molde (t1 t2 : Z) (f1 f2 : string) : Prop :=
  exists pre pos : string, f1 = fstring pre t1 pos /\ f2 = fstring pre t2 pos.

(** The entries of a loaded table that carry one of the given labels. *)
Definition so_rotulos {pyobj : Type} (rotulos : list string)
    (df : DataFrame pyobj) : DataFrame pyobj :=
  filter (fun col => in_list (fst col) rotulos) df.

(** A resolver that permits extinct states whatever it is asked. *)
Definition resolver_permissivo (entrada : string) (_ : bool) : result string :=
  parse.uf entrada true.

(** A resolver that returns its input. *)
Definition resolver_identidade (entrada : string) (_ : bool) : result string :=
  Ok entrada.

(** A municipality table like [tabela_tse] with another extra column. *)
Definition tabela_tse_enxuta : DataFrame string := [
    ("uf", ["AC"; "AC"]);
    ("codigo_ibge", ["1200013"; "1200054"]);
    ("codigo_tse", ["1120"; "1570"]);
    ("area", ["1807"; "4974"]);
    ("capital", ["0"; "0"]);
    ("nome_municipio", ["ACRELÂNDIA"; "ASSIS BRASIL"])
  ].

Definition mundo_enxuto : Mundo string := {|
  bacen_resp := fun cod _ => Ok [("valor", [str cod])];
  ipea_resp := fun cod _ => Ok [("valor", [cod])];
  get_json_resp := fun url => Ok url;
  read_csv_resp := fun _ _ _ => Err (ResourceUnavailable "offline");
  read_json_resp := fun _ => Ok tabela_tse_enxuta
|}.

(** ** Sanity runs *)

Example str_exemplos : (str 0, str 200, str (-5)) = ("0", "200", "-5").
Proof. reflexivity. Qed.

Example lower_exemplos :
  (lower_latin1 "MENSAL", lower_latin1 "DIÁRIA", lower_latin1 "Diário")
  = ("mensal", "diária", "diário").
Proof. reflexivity. Qed.

Example uf_exemplos :
  (parse.uf "sc" false, parse.uf "São Paulo" false, parse.uf "SAO PAULO" false,
   parse.uf "GB" true, parse.uf "guanabara" true)
  = (Ok "SC", Ok "SP", Ok "SP", Ok "GB", Ok "GB").
Proof. reflexivity. Qed.

Example uf_rejeita :
  (parse.uf "XX" false, parse.uf "" false, parse.uf "GB" false)
  = (Err (DAB_UFError "XX"), Err (DAB_UFError ""), Err (DAB_UFError "GB")).
Proof. reflexivity. Qed.

Example bandeira_sc_200 :
  bandeira string parse.uf "SC" 200
  = ([], Ok "https://upload.wikimedia.org/wikipedia/commons/thumb/1/1a/Bandeira_de_Santa_Catarina.svg/200px-Bandeira_de_Santa_Catarina.svg.png").
Proof. reflexivity. Qed.

Example geojson_sc :
  geojson parse.uf mundo_exemplo "Santa Catarina"
  = ([RequestsGetJson "https://raw.githubusercontent.com/tbrugz/geodata-br/master/geojson/geojs-42-mun.json"],
     Ok "https://raw.githubusercontent.com/tbrugz/geodata-br/master/geojson/geojs-42-mun.json").
Proof. reflexivity. Qed.

Example codigos_municipios_exemplo :
  codigos_municipios mundo_exemplo
  = ([PdReadJson "https://raw.githubusercontent.com/betafcc/Municipios-Brasileiros-TSE/master/municipios_brasileiros_tse.json"],
     Ok [("codigo_tse", ["1120"; "1570"]);
         ("codigo_ibge", ["1200013"; "1200054"]);
         ("nome_municipio", ["ACRELÂNDIA"; "ASSIS BRASIL"]);
         ("uf", ["AC"; "AC"]);
         ("capital", ["0"; "0"])]).
Proof. reflexivity. Qed.

Example raiz_exemplo :
  forall t, raiz (fstring "1/1a/Bandeira_de_Santa_Catarina.svg/" t "px-Bandeira_de_Santa_Catarina.svg.png")
  = "1/1a/Bandeira_de_Santa_Catarina.svg/".
Proof. intro t. vm_compute. reflexivity. Qed.

(** ** Strings *)

Lemma append_assoc (a b c : string) : (a ++ b) ++ c = a ++ (b ++ c).
Proof. induction a as [|x a IH]; simpl; congruence. Qed.

Lemma prefix_append (a b : string) : prefix a (a ++ b) = true.
Proof.
  induction a as [|x a IH]; simpl.
  - destruct b; reflexivity.
  - destruct (ascii_dec x x) as [_|N]; [exact IH | contradiction].
Qed.

Lemma prefix_vazia (n : string) : n <> EmptyString -> prefix n EmptyString = false.
Proof. destruct n; [contradiction | reflexivity]. Qed.

Section UmCaractere.

Variable c : ascii.

Lemma conta_append (a b : string) : conta c (a ++ b) = conta c a + conta c b.
Proof. induction a as [|x a IH]; simpl; [reflexivity | rewrite IH; lia]. Qed.

Lemma acha_sem (s : string) : conta c s = 0 -> acha c s = None.
Proof.
  induction s as [|x s IH]; simpl; [reflexivity|].
  destruct (Ascii.eqb x c); [discriminate|].
  intro H. rewrite IH by exact H. reflexivity.
Qed.

Lemma acha_append_sem (a b : string) :
  conta c a = 0 -> acha c (a ++ b) = option_map (Nat.add (String.length a)) (acha c b).
Proof.
  induction a as [|x a IH]; simpl.
  - intros _. destruct (acha c b); reflexivity.
  - destruct (Ascii.eqb x c); [discriminate|].
    intro H. rewrite IH by exact H. destruct (acha c b); reflexivity.
Qed.

Lemma acha_nao_vazia (n : string) (k : nat) : acha c n = Some k -> n <> EmptyString.
Proof. intros H E. subst n. discriminate H. Qed.

(** A prefix has its first [c] where the whole string has it. *)
Lemma prefix_acha (n : string) :
  forall (h : string) (k : nat),
    prefix n h = true -> acha c n = Some k -> acha c h = Some k.
Proof.
  induction n as [|a n IH]; intros h k; [discriminate 2|].
  destruct h as [|b h]; [discriminate 1|]. simpl.
  destruct (ascii_dec a b) as [->|_]; [|discriminate 1].
  destruct (Ascii.eqb b c); [trivial|].
  intros P A. destruct (acha c n) as [k'|] eqn:E; [|discriminate A].
  rewrite (IH h k' P eq_refl). exact A.
Qed.

Variable n : string.
Variable k : nat.
Hypothesis acha_n : acha c n = Some k.

Lemma ocorrencias_sem (h : string) : conta c h = 0 -> ocorrencias n h = 0.
Proof.
  induction h as [|a r IH]; intro H.
  - cbn [ocorrencias]. rewrite (prefix_vazia n (acha_nao_vazia n k acha_n)).
    reflexivity.
  - cbn [ocorrencias]. destruct (prefix n (String a r)) eqn:P.
    + apply prefix_acha with (k := k) in P; [|exact acha_n].
      rewrite (acha_sem _ H) in P. discriminate P.
    + simpl in H. destruct (Ascii.eqb a c); [discriminate H|]. exact (IH H).
Qed.

Lemma ocorrencias_antes (h : string) :
  forall j, conta c h = 1 -> acha c h = Some j -> j < k -> ocorrencias n h = 0.
Proof.
  induction h as [|a r IH]; intros j C A L; [discriminate C|].
  cbn [ocorrencias]. destruct (prefix n (String a r)) eqn:P.
  - apply prefix_acha with (k := k) in P; [|exact acha_n].
    rewrite A in P. injection P as ->. lia.
  - simpl in C, A. destruct (Ascii.eqb a c).
    + apply ocorrencias_sem. lia.
    + destruct (acha c r) as [j'|] eqn:E; [|discriminate A].
      injection A as <-. apply (IH j'); [exact C | reflexivity | lia].
Qed.

Lemma ocorrencias_exata (h : string) :
  conta c h = 1 -> acha c h = Some k -> prefix n h = true -> ocorrencias n h = 1.
Proof.
  destruct h as [|a r]; intros C A P; [discriminate C|].
  cbn [ocorrencias]. rewrite P.
  simpl in C, A. destruct (Ascii.eqb a c).
  - rewrite ocorrencias_sem by lia. reflexivity.
  - destruct (acha c r) as [j'|] eqn:E; [|discriminate A].
    simpl in A. injection A as Ek.
    rewrite (ocorrencias_antes r j' C E) by lia. reflexivity.
Qed.

Lemma ocorrencias_salta (pre h0 : string) :
  conta c pre = 0 -> acha c h0 = Some k ->
  ocorrencias n (pre ++ h0) = ocorrencias n h0.
Proof.
  intros C A. induction pre as [|a pre IH]; [reflexivity|].
  simpl in C. destruct (Ascii.eqb a c) eqn:Eac; [discriminate C|].
  change (String a pre ++ h0) with (String a (pre ++ h0)).
  cbn [ocorrencias]. destruct (prefix n (String a (pre ++ h0))) eqn:P.
  - apply prefix_acha with (k := k) in P; [|exact acha_n].
    simpl in P. rewrite Eac, (acha_append_sem pre h0 C), A in P.
    simpl in P. injection P as P. lia.
  - exact (IH C).
Qed.

End UmCaractere.

(** The size followed by [px] occurs once when nothing around it has an
    [x]. *)
Lemma ocorrencias_px (pre d pos : string) :
  conta "x" pre = 0 -> conta "x" d = 0 -> conta "x" pos = 0 ->
  ocorrencias (d ++ "px") (pre ++ d ++ "px" ++ pos) = 1.
Proof.
  intros Cpre Cd Cpos.
  assert (An : acha "x" (d ++ "px") = Some (String.length d + 1))
    by (rewrite acha_append_sem by exact Cd; reflexivity).
  assert (Ah : acha "x" (d ++ "px" ++ pos) = Some (String.length d + 1))
    by (rewrite acha_append_sem by exact Cd; reflexivity).
  rewrite (ocorrencias_salta "x" _ _ An pre _ Cpre Ah).
  apply (ocorrencias_exata "x" _ _ An).
  - rewrite conta_append, Cd. simpl. rewrite Cpos. reflexivity.
  - exact Ah.
  - rewrite <- append_assoc. apply prefix_append.
Qed.

Lemma conta_x_uint (d : Decimal.uint) : conta "x" (NilEmpty.string_of_uint d) = 0.
Proof. induction d; simpl; trivial. Qed.

(** The decimal rendering of an integer has no [x]. *)
Lemma conta_x_str (t : Z) : conta "x" (str t) = 0.
Proof.
  unfold str. destruct (Z.to_int t) as [d|d]; simpl;
    destruct d; simpl; trivial; apply conta_x_uint.
Qed.

(** ** Lists and tables *)

Lemma in_list_In (s : string) (l : list string) : in_list s l = true <-> In s l.
Proof.
  unfold in_list. rewrite existsb_exists. split.
  - intros [x [I E]]. apply String.eqb_eq in E. subst. exact I.
  - intro I. exists s. split; [exact I | apply String.eqb_refl].
Qed.

Lemma nodupb_NoDup (l : list string) : nodupb l = true -> NoDup l.
Proof.
  induction l as [|x r IH]; simpl; intro H; constructor.
  - apply andb_prop in H as [H _]. intro I. apply in_list_In in I.
    rewrite I in H. discriminate H.
  - apply andb_prop in H as [_ H]. exact (IH H).
Qed.

Lemma NoDup_map_inj {A B : Type} (f : A -> B) (l : list A) :
  NoDup (map f l) -> forall a b, In a l -> In b l -> f a = f b -> a = b.
Proof.
  induction l as [|x r IH]; simpl; intros N a b Ia Ib E; [contradiction|].
  inversion N as [|? ? Nx Nr]; subst.
  destruct Ia as [<-|Ia], Ib as [<-|Ib]; trivial.
  - exfalso. apply Nx. rewrite E. apply in_map. exact Ib.
  - exfalso. apply Nx. rewrite <- E. apply in_map. exact Ia.
  - exact (IH Nr a b Ia Ib E).
Qed.

Section Tabelas.

Context {V : Type}.

Lemma dict_get_In (k : string) (d : dict V) (v : V) :
  dict_get k d = Some v -> In (k, v) d.
Proof.
  induction d as [|[k' v'] d IH]; simpl; [discriminate|].
  destruct (String.eqb_spec k k') as [->|_].
  - intros [= ->]. left. reflexivity.
  - intro H. right. exact (IH H).
Qed.

Lemma dict_get_key (k : string) (d : dict V) :
  In k (keys d) -> exists v, dict_get k d = Some v.
Proof.
  induction d as [|[k' v'] d IH]; simpl; [contradiction|].
  destruct (String.eqb_spec k k') as [->|N].
  - intros _. exists v'. reflexivity.
  - intros [E|I]; [congruence | exact (IH I)].
Qed.

Lemma dict_get_none (k : string) (d : dict V) :
  ~ In k (keys d) -> dict_get k d = None.
Proof.
  induction d as [|[k' v'] d IH]; simpl; [reflexivity|].
  intro N. destruct (String.eqb_spec k k') as [->|_].
  - exfalso. apply N. left. reflexivity.
  - apply IH. intro I. apply N. right. exact I.
Qed.

Lemma dict_get_append (k : string) (d1 d2 : dict V) :
  dict_get k (d1 ++ d2)%list
  = match dict_get k d1 with Some v => Some v | None => dict_get k d2 end.
Proof.
  induction d1 as [|[k' v'] d1 IH]; simpl; [reflexivity|].
  destruct (String.eqb k k'); [reflexivity | exact IH].
Qed.

End Tabelas.

Lemma chave_por_valor_ok (d : dict string) :
  chave_por_valor d = true ->
  forall k1 k2 v, In (k1, v) d -> In (k2, v) d -> k1 = k2.
Proof.
  unfold chave_por_valor. intros H k1 k2 v I1 I2.
  rewrite forallb_forall in H. specialize (H _ I1).
  rewrite forallb_forall in H. specialize (H _ I2). simpl in H.
  apply orb_prop in H as [H|H].
  - apply String.eqb_eq. exact H.
  - rewrite String.eqb_refl in H. discriminate H.
Qed.

(** ** The resolver *)

Lemma incl_forallb (l1 l2 : list string) :
  forallb (fun x => in_list x l2) l1 = true -> incl l1 l2.
Proof.
  intros H x I. rewrite forallb_forall in H. apply in_list_In. exact (H x I).
Qed.

Lemma uf_imagem (entrada : string) (extintos : bool) (sigla : string) :
  parse.uf entrada extintos = Ok sigla ->
  In sigla (map snd (if extintos then parse.UFS ++ parse.EXTINTOS
                     else parse.UFS)%list).
Proof.
  unfold parse.uf.
  destruct (dict_get _ _) as [v|] eqn:E; [|discriminate].
  intros [= ->]. apply dict_get_In in E. apply in_map_iff in E as [kv [E I]].
  injection E as _ <-. apply in_map. exact I.
Qed.

(** With extinct states permitted the modelled resolver returns one of the
    thirty state codes. *)
Lemma uf_extintos_valida (entrada sigla : string) :
  parse.uf entrada true = Ok sigla -> In sigla siglas_validas.
Proof.
  intro H. apply uf_imagem in H. revert sigla H.
  apply incl_forallb. vm_compute. reflexivity.
Qed.

(** Without them it returns one of the keys of [mapping]. *)
Lemma uf_atuais_chave (entrada sigla : string) :
  parse.uf entrada false = Ok sigla -> In sigla (keys mapping).
Proof.
  intro H. apply uf_imagem in H. revert sigla H.
  apply incl_forallb. vm_compute. reflexivity.
Qed.

(** An identifier that only the extinct entries match is rejected when
    extinct states are not permitted. *)
Lemma uf_extinta_rejeitada (entrada sigla : string) :
  parse.uf entrada true = Ok sigla -> In sigla siglas_extintas ->
  parse.uf entrada false = Err (DAB_UFError entrada).
Proof.
  unfold parse.uf. rewrite map_app, dict_get_append.
  destruct (dict_get _ (map _ parse.UFS)) as [v|] eqn:E; [|reflexivity].
  intros [= ->] I. exfalso.
  apply dict_get_In in E. apply in_map_iff in E as [kv [E J]].
  injection E as _ E. apply (in_map snd) in J. rewrite E in J.
  assert (C : forallb (fun v => negb (in_list v siglas_extintas))
                (map snd parse.UFS) = true) by (vm_compute; reflexivity).
  rewrite forallb_forall in C. specialize (C _ J).
  apply in_list_In in I. rewrite I in C. discriminate C.
Qed.

(** ** The image tables *)

Ltac forma_entradas :=
  repeat (apply Forall_cons;
          [ eexists; eexists; split; [reflexivity | split; reflexivity] | ]);
  apply Forall_nil.

Lemma bandeira_tabela_forma (t : Z) :
  Forall (fun kv => forma t (snd kv)) (bandeira_tabela t).
Proof. unfold bandeira_tabela. forma_entradas. Qed.

Lemma brasao_tabela_forma (t : Z) :
  Forall (fun kv => forma t (snd kv)) (brasao_tabela t).
Proof. unfold brasao_tabela. forma_entradas. Qed.

Lemma forma_ocorrencias (t : Z) (f : string) :
  forma t f -> ocorrencias (str t ++ "px") f = 1.
Proof.
  intros [pre [pos [-> [Cpre Cpos]]]]. unfold fstring.
  apply ocorrencias_px; [exact Cpre | apply conta_x_str | exact Cpos].
Qed.

Lemma dict_get_forma (t : Z) (d : dict string) (k f : string) :
  Forall (fun kv => forma t (snd kv)) d -> dict_get k d = Some f -> forma t f.
Proof.
  intros F G. apply dict_get_In in G. rewrite Forall_forall in F.
  exact (F _ G).
Qed.

(** Both image tables have an entry for each of the thirty state codes. *)
Lemma validas_nas_tabelas (t : Z) (sigla : string) :
  In sigla siglas_validas ->
  (exists f, dict_get sigla (bandeira_tabela t) = Some f) /\
  (exists f, dict_get sigla (brasao_tabela t) = Some f).
Proof.
  intro I. split; apply dict_get_key; revert sigla I; apply incl_forallb;
    reflexivity.
Qed.

Lemma append_inj_l (a b c : string) : a ++ b = a ++ c -> b = c.
Proof. induction a as [|x a IH]; simpl; [trivial|]. intros [= E]. exact (IH E). Qed.

(** Fragments of two different keys differ, whatever the size: they
    already differ before it. *)
Lemma fragmentos_distintos (d : Z -> dict string) (t : Z) :
  raizes (d t) = raizes (d 0%Z) ->
  chave_por_valor (raizes (d 0%Z)) = true ->
  forall k1 k2 f1 f2,
    dict_get k1 (d t) = Some f1 -> dict_get k2 (d t) = Some f2 ->
    k1 <> k2 -> URL ++ f1 <> URL ++ f2.
Proof.
  intros R C k1 k2 f1 f2 G1 G2 N E. apply N.
  apply append_inj_l in E. subst f2.
  apply (chave_por_valor_ok _ C k1 k2 (raiz f1)); rewrite <- R; unfold raizes.
  - apply dict_get_In in G1.
    exact (in_map (fun kv => (fst kv, raiz (snd kv))) _ _ G1).
  - apply dict_get_In in G2.
    exact (in_map (fun kv => (fst kv, raiz (snd kv))) _ _ G2).
Qed.

Lemma bandeira_raizes (t : Z) :
  raizes (bandeira_tabela t) = raizes (bandeira_tabela 0).
Proof. vm_compute. reflexivity. Qed.

Lemma brasao_raizes (t : Z) :
  raizes (brasao_tabela t) = raizes (brasao_tabela 0).
Proof. vm_compute. reflexivity. Qed.

Section Imagens.

Variable pyobj : Type.
Variable parse_uf : string -> bool -> result string.

Lemma bandeira_ok (uf sigla : string) (t : Z) (f : string) :
  parse_uf uf true = Ok sigla ->
  dict_get sigla (bandeira_tabela t) = Some f ->
  bandeira pyobj parse_uf uf t = ([], Ok (URL ++ f)).
Proof.
  intros H G. cbv [bandeira lift bind ret getitem]. rewrite H, G. reflexivity.
Qed.

Lemma brasao_ok (uf sigla : string) (t : Z) (f : string) :
  parse_uf uf true = Ok sigla ->
  dict_get sigla (brasao_tabela t) = Some f ->
  brasao pyobj parse_uf uf t = ([], Ok (URL ++ f)).
Proof.
  intros H G. cbv [brasao lift bind ret getitem]. rewrite H, G. reflexivity.
Qed.

Lemma bandeira_erro (uf : string) (t : Z) (e : exn) :
  parse_uf uf true = Err e -> bandeira pyobj parse_uf uf t = ([], Err e).
Proof. intro H. cbv [bandeira lift bind]. rewrite H. reflexivity. Qed.

Lemma brasao_erro (uf : string) (t : Z) (e : exn) :
  parse_uf uf true = Err e -> brasao pyobj parse_uf uf t = ([], Err e).
Proof. intro H. cbv [brasao lift bind]. rewrite H. reflexivity. Qed.

Lemma bandeira_falta (uf sigla : string) (t : Z) :
  parse_uf uf true = Ok sigla ->
  dict_get sigla (bandeira_tabela t) = None ->
  bandeira pyobj parse_uf uf t = ([], Err (KeyError [sigla])).
Proof.
  intros H G. cbv [bandeira lift bind ret getitem]. rewrite H, G. reflexivity.
Qed.

Lemma brasao_falta (uf sigla : string) (t : Z) :
  parse_uf uf true = Ok sigla ->
  dict_get sigla (brasao_tabela t) = None ->
  brasao pyobj parse_uf uf t = ([], Err (KeyError [sigla])).
Proof.
  intros H G. cbv [brasao lift bind ret getitem]. rewrite H, G. reflexivity.
Qed.

End Imagens.

Lemma mesmas_chaves (t1 t2 : Z) (k : string) :
  dict_get k (bandeira_tabela t1) = None <-> dict_get k (brasao_tabela t2) = None.
Proof.
  assert (K : keys (bandeira_tabela t1) = keys (brasao_tabela t2)) by reflexivity.
  split; intro H.
  - destruct (dict_get k (brasao_tabela t2)) as [f|] eqn:G; [|reflexivity].
    apply dict_get_In, (in_map fst) in G. fold (keys (brasao_tabela t2)) in G.
    rewrite <- K in G. destruct (dict_get_key _ _ G) as [v E].
    cbn [fst] in E. congruence.
  - destruct (dict_get k (bandeira_tabela t1)) as [f|] eqn:G; [|reflexivity].
    apply dict_get_In, (in_map fst) in G. fold (keys (bandeira_tabela t1)) in G.
    rewrite K in G. destruct (dict_get_key _ _ G) as [v E].
    cbn [fst] in E. congruence.
Qed.

(** C3: whatever the resolver, for every identifier that it resolves, with
    extinct states permitted, to one of the thirty state codes, and every
    integer [tamanho], which is not checked and may be zero or negative,
    [bandeira] and [brasao] call no collaborator and return the base URL
    [https://upload.wikimedia.org/wikipedia/commons/thumb/] followed by
    the fragment that their table holds for the resolved code; in that
    fragment the decimal rendering of [tamanho] followed by [px] starts at
    exactly one position.  In particular [bandeira('SC', 200)] and
    [brasao('SC', 200)] are the two URLs written out below; they contain
    [200px], and [200] is their only numeric size token. *)
Theorem bandeira_brasao_url (pyobj : Type)
    (parse_uf : string -> bool -> result string) :
  (forall (uf sigla : string) (tamanho : Z),
      parse_uf uf true = Ok sigla -> In sigla siglas_validas ->
      exists fb fr : string,
        dict_get sigla (bandeira_tabela tamanho) = Some fb /\
        dict_get sigla (brasao_tabela tamanho) = Some fr /\
        bandeira pyobj parse_uf uf tamanho
        = ([], Ok ("https://upload.wikimedia.org/wikipedia/commons/thumb/" ++ fb)) /\
        brasao pyobj parse_uf uf tamanho
        = ([], Ok ("https://upload.wikimedia.org/wikipedia/commons/thumb/" ++ fr)) /\
        ocorrencias (str tamanho ++ "px") fb = 1 /\
        ocorrencias (str tamanho ++ "px") fr = 1) /\
  (parse_uf "SC" true = Ok "SC" ->
   exists ub ur : string,
     ub = "https://upload.wikimedia.org/wikipedia/commons/thumb/1/1a/Bandeira_de_Santa_Catarina.svg/200px-Bandeira_de_Santa_Catarina.svg.png" /\
     ur = "https://upload.wikimedia.org/wikipedia/commons/thumb/6/65/Brasão_de_Santa_Catarina.svg/200px-Brasão_de_Santa_Catarina.svg.png" /\
     bandeira pyobj parse_uf "SC" 200 = ([], Ok ub) /\
     brasao pyobj parse_uf "SC" 200 = ([], Ok ur) /\
     contem "200px" ub = true /\ contem "200px" ur = true /\
     tokens_px ub = ["200"] /\ tokens_px ur = ["200"]).
Proof.
  split.
  - intros uf sigla t H I.
    destruct (validas_nas_tabelas t sigla I) as [[fb Gb] [fr Gr]].
    exists fb, fr. repeat split; trivial.
    + exact (bandeira_ok pyobj parse_uf uf sigla t fb H Gb).
    + exact (brasao_ok pyobj parse_uf uf sigla t fr H Gr).
    + apply forma_ocorrencias.
      exact (dict_get_forma t _ _ _ (bandeira_tabela_forma t) Gb).
    + apply forma_ocorrencias.
      exact (dict_get_forma t _ _ _ (brasao_tabela_forma t) Gr).
  - intro H. eexists. eexists.
    split; [reflexivity|]. split; [reflexivity|].
    split; [exact (bandeira_ok pyobj parse_uf "SC" "SC" 200 _ H eq_refl)|].
    split; [exact (brasao_ok pyobj parse_uf "SC" "SC" 200 _ H eq_refl)|].
    repeat split; vm_compute; reflexivity.
Qed.

(** Runs of C3 with the modelled resolver: a lower-case identifier of an
    extinct state with a negative size, and ['SC'] with 200. *)
Lemma bandeira_brasao_url_witness :
  (parse.uf "gb" true = Ok "GB" /\ In "GB" siglas_validas /\
   exists fb fr : string,
     dict_get "GB" (bandeira_tabela (-5)) = Some fb /\
     dict_get "GB" (brasao_tabela (-5)) = Some fr /\
     bandeira string parse.uf "gb" (-5)
     = ([], Ok ("https://upload.wikimedia.org/wikipedia/commons/thumb/" ++ fb)) /\
     brasao string parse.uf "gb" (-5)
     = ([], Ok ("https://upload.wikimedia.org/wikipedia/commons/thumb/" ++ fr)) /\
     ocorrencias (str (-5) ++ "px") fb = 1 /\
     ocorrencias (str (-5) ++ "px") fr = 1) /\
  (parse.uf "SC" true = Ok "SC" /\
   exists ub ur : string,
     ub = "https://upload.wikimedia.org/wikipedia/commons/thumb/1/1a/Bandeira_de_Santa_Catarina.svg/200px-Bandeira_de_Santa_Catarina.svg.png" /\
     ur = "https://upload.wikimedia.org/wikipedia/commons/thumb/6/65/Brasão_de_Santa_Catarina.svg/200px-Brasão_de_Santa_Catarina.svg.png" /\
     bandeira string parse.uf "SC" 200 = ([], Ok ub) /\
     brasao string parse.uf "SC" 200 = ([], Ok ur) /\
     contem "200px" ub = true /\ contem "200px" ur = true /\
     tokens_px ub = ["200"] /\ tokens_px ur = ["200"]).
Proof.
  assert (I : In "GB" siglas_validas) by (apply in_list_In; reflexivity).
  split.
  - split; [reflexivity|]. split; [exact I|].
    exact (proj1 (bandeira_brasao_url string parse.uf) "gb" "GB" (-5)%Z
             eq_refl I).
  - split; [reflexivity|].
    exact (proj2 (bandeira_brasao_url string parse.uf) eq_refl).
Defined.

(** C4: whatever the resolver, for [bandeira] and for [brasao], with the
    size fixed, identifiers that resolve to different codes among the
    thirty state codes ([FN] and [GB] are two of them) give different
    URLs; and the outcome is a function of the resolved code and the size
    alone, so it is the same at every call. *)
Theorem url_distinta_por_sigla (pyobj : Type)
    (parse_uf : string -> bool -> result string) (tamanho : Z) :
  (forall uf1 uf2 s1 s2 : string,
      parse_uf uf1 true = Ok s1 -> parse_uf uf2 true = Ok s2 ->
      In s1 siglas_validas -> In s2 siglas_validas -> s1 <> s2 ->
      exists b1 b2 r1 r2 : string,
        bandeira pyobj parse_uf uf1 tamanho = ([], Ok b1) /\
        bandeira pyobj parse_uf uf2 tamanho = ([], Ok b2) /\ b1 <> b2 /\
        brasao pyobj parse_uf uf1 tamanho = ([], Ok r1) /\
        brasao pyobj parse_uf uf2 tamanho = ([], Ok r2) /\ r1 <> r2) /\
  In "FN" siglas_validas /\ In "GB" siglas_validas /\
  (forall (parse_uf' : string -> bool -> result string) (uf uf' : string),
      parse_uf uf true = parse_uf' uf' true ->
      bandeira pyobj parse_uf uf tamanho = bandeira pyobj parse_uf' uf' tamanho /\
      brasao pyobj parse_uf uf tamanho = brasao pyobj parse_uf' uf' tamanho).
Proof.
  split; [|split; [|split]].
  - intros uf1 uf2 s1 s2 H1 H2 I1 I2 N.
    destruct (validas_nas_tabelas tamanho s1 I1) as [[fb1 Gb1] [fr1 Gr1]].
    destruct (validas_nas_tabelas tamanho s2 I2) as [[fb2 Gb2] [fr2 Gr2]].
    exists (URL ++ fb1), (URL ++ fb2), (URL ++ fr1), (URL ++ fr2).
    split; [exact (bandeira_ok pyobj parse_uf uf1 s1 tamanho fb1 H1 Gb1)|].
    split; [exact (bandeira_ok pyobj parse_uf uf2 s2 tamanho fb2 H2 Gb2)|].
    split.
    { apply (fragmentos_distintos bandeira_tabela tamanho
               (bandeira_raizes tamanho) eq_refl s1 s2); assumption. }
    split; [exact (brasao_ok pyobj parse_uf uf1 s1 tamanho fr1 H1 Gr1)|].
    split; [exact (brasao_ok pyobj parse_uf uf2 s2 tamanho fr2 H2 Gr2)|].
    apply (fragmentos_distintos brasao_tabela tamanho
             (brasao_raizes tamanho) eq_refl s1 s2); assumption.
  - apply in_list_In. reflexivity.
  - apply in_list_In. reflexivity.
  - intros parse_uf' uf uf' E. cbv [bandeira brasao lift bind].
    rewrite E. split; reflexivity.
Qed.

(** A run of C4 with the modelled resolver at the two extinct codes, one
    given by its name. *)
Lemma url_distinta_por_sigla_witness :
  parse.uf "Fernando de Noronha" true = Ok "FN" /\
  parse.uf "GB" true = Ok "GB" /\
  In "FN" siglas_validas /\ In "GB" siglas_validas /\ "FN" <> "GB" /\
  exists b1 b2 r1 r2 : string,
    bandeira string parse.uf "Fernando de Noronha" 100 = ([], Ok b1) /\
    bandeira string parse.uf "GB" 100 = ([], Ok b2) /\ b1 <> b2 /\
    brasao string parse.uf "Fernando de Noronha" 100 = ([], Ok r1) /\
    brasao string parse.uf "GB" 100 = ([], Ok r2) /\ r1 <> r2.
Proof.
  assert (I1 : In "FN" siglas_validas) by (apply in_list_In; reflexivity).
  assert (I2 : In "GB" siglas_validas) by (apply in_list_In; reflexivity).
  assert (N : "FN" <> "GB") by discriminate.
  split; [reflexivity|]. split; [reflexivity|].
  split; [exact I1|]. split; [exact I2|]. split; [exact N|].
  exact (proj1 (url_distinta_por_sigla string parse.uf 100)
           "Fernando de Noronha" "GB" "FN" "GB" eq_refl eq_refl I1 I2 N).
Defined.

(** C9: the tables of [bandeira] and [brasao] have the same thirty keys:
    the twenty-eight keys of [mapping] (the country pseudo-code [BR] and
    the twenty-seven current codes) and the extinct codes [FN] and [GB];
    so, whatever the resolver, an identifier is accepted by [bandeira]
    exactly when it is accepted by [brasao]; and neither table misses a
    code that the modelled resolver returns with extinct states
    permitted. *)
Theorem tabelas_mesmas_chaves (pyobj : Type) (t1 t2 : Z) :
  keys (bandeira_tabela t1) = keys (brasao_tabela t2) /\
  List.length (keys (bandeira_tabela t1)) = 30 /\
  NoDup (keys (bandeira_tabela t1)) /\
  (forall k : string,
      In k (keys (bandeira_tabela t1))
      <-> In k (keys mapping) \/ In k ["FN"; "GB"]) /\
  List.length (keys mapping) = 28 /\ NoDup (keys mapping) /\
  In "BR" (keys mapping) /\
  (forall k : string, In k ["FN"; "GB"] -> ~ In k (keys mapping)) /\
  (forall (parse_uf : string -> bool -> result string) (uf : string),
      (exists u, bandeira pyobj parse_uf uf t1 = ([], Ok u))
      <-> (exists u, brasao pyobj parse_uf uf t2 = ([], Ok u))) /\
  (forall uf sigla : string,
      parse.uf uf true = Ok sigla ->
      (exists f, dict_get sigla (bandeira_tabela t1) = Some f) /\
      (exists f, dict_get sigla (brasao_tabela t2) = Some f)).
Proof.
  split; [reflexivity|]. split; [reflexivity|].
  split; [apply nodupb_NoDup; reflexivity|].
  split.
  { intro k. rewrite <- in_app_iff. split.
    - apply incl_forallb. reflexivity.
    - apply incl_forallb. reflexivity. }
  split; [reflexivity|]. split; [apply nodupb_NoDup; reflexivity|].
  split; [apply in_list_In; reflexivity|].
  split.
  { intros k [<-|[<-|[]]] I; apply in_list_In in I; discriminate I. }
  split.
  - intros parse_uf uf. destruct (parse_uf uf true) as [sigla|e] eqn:H.
    + destruct (dict_get sigla (bandeira_tabela t1)) as [fb|] eqn:Gb.
      * destruct (dict_get sigla (brasao_tabela t2)) as [fr|] eqn:Gr.
        -- split; intros _.
           ++ exists (URL ++ fr).
              exact (brasao_ok pyobj parse_uf uf sigla t2 fr H Gr).
           ++ exists (URL ++ fb).
              exact (bandeira_ok pyobj parse_uf uf sigla t1 fb H Gb).
        -- apply (mesmas_chaves t1 t2) in Gr. congruence.
      * pose proof (proj1 (mesmas_chaves t1 t2 sigla) Gb) as Gr.
        split; intros [u E].
        -- rewrite (bandeira_falta pyobj parse_uf uf sigla t1 H Gb) in E.
           discriminate E.
        -- rewrite (brasao_falta pyobj parse_uf uf sigla t2 H Gr) in E.
           discriminate E.
    + split; intros [u E].
      * rewrite (bandeira_erro pyobj parse_uf uf t1 e H) in E. discriminate E.
      * rewrite (brasao_erro pyobj parse_uf uf t2 e H) in E. discriminate E.
  - intros uf sigla H. apply uf_extintos_valida in H.
    destruct (validas_nas_tabelas t1 sigla H) as [Gb _].
    destruct (validas_nas_tabelas t2 sigla H) as [_ Gr].
    split; assumption.
Qed.

(** A run of C9 at a state name with a diacritic. *)
Lemma tabelas_mesmas_chaves_witness :
  parse.uf "Pará" true = Ok "PA" /\
  (exists f, dict_get "PA" (bandeira_tabela 100) = Some f) /\
  (exists f, dict_get "PA" (brasao_tabela 64) = Some f).
Proof.
  split; [reflexivity|].
  apply (proj2 (proj2 (proj2 (proj2 (proj2 (proj2 (proj2 (proj2 (proj2
           (tabelas_mesmas_chaves string 100 64))))))))) "Pará" "PA").
  reflexivity.
Defined.

(** ** [geojson] *)

Section Geojson.

Context {pyobj : Type}.
Variable parse_uf : string -> bool -> result string.
Variable w : Mundo pyobj.

Lemma geojson_ok (uf sigla : string) (n : Z) :
  parse_uf uf false = Ok sigla -> dict_get sigla mapping = Some n ->
  geojson parse_uf w uf = requests.get_json w (geojson_url n).
Proof.
  intros H G. cbv [geojson lift bind getitem]. rewrite H, G. reflexivity.
Qed.

Lemma geojson_erro (uf : string) (e : exn) :
  parse_uf uf false = Err e -> geojson parse_uf w uf = ([], Err e).
Proof. intro H. cbv [geojson lift bind]. rewrite H. reflexivity. Qed.

End Geojson.

Lemma mapping_urls :
  chave_por_valor (map (fun kv => (fst kv, geojson_url (snd kv))) mapping) = true.
Proof. vm_compute. reflexivity. Qed.

Lemma mapping_url_distinta (s1 s2 : string) (n1 n2 : Z) :
  dict_get s1 mapping = Some n1 -> dict_get s2 mapping = Some n2 ->
  s1 <> s2 -> geojson_url n1 <> geojson_url n2.
Proof.
  intros G1 G2 N E. apply N.
  apply (chave_por_valor_ok _ mapping_urls s1 s2 (geojson_url n1)).
  - apply dict_get_In in G1.
    exact (in_map (fun kv => (fst kv, geojson_url (snd kv))) _ _ G1).
  - rewrite E. apply dict_get_In in G2.
    exact (in_map (fun kv => (fst kv, geojson_url (snd kv))) _ _ G2).
Qed.

(** C5: whatever the resolver, for every state identifier that it
    resolves (extinct states not permitted) to one of the 28 codes of
    [mapping], [geojson] finds the numeric region identifier of that code
    in [mapping], makes exactly one call, the fetch of
    [.../geojs-<identifier>-mun.json], and returns the collaborator's
    answer as it is; each of the 28 entries of [mapping] is found under its
    key, among them [BR] with 100, [AC] with 12 and [SC] with 42. *)
Theorem geojson_consulta (pyobj : Type)
    (parse_uf : string -> bool -> result string) (w : Mundo pyobj) :
  (forall uf sigla : string,
      parse_uf uf false = Ok sigla -> In sigla (keys mapping) ->
      exists n : Z,
        dict_get sigla mapping = Some n /\
        let url := "https://raw.githubusercontent.com/tbrugz/geodata-br/master/geojson/geojs-"
                   ++ str n ++ "-mun.json" in
        chamadas (geojson parse_uf w uf) = [RequestsGetJson url] /\
        resultado (geojson parse_uf w uf) = get_json_resp w url) /\
  List.length mapping = 28 /\
  (forall (k : string) (n : Z), In (k, n) mapping -> dict_get k mapping = Some n) /\
  dict_get "BR" mapping = Some 100%Z /\
  dict_get "AC" mapping = Some 12%Z /\
  dict_get "SC" mapping = Some 42%Z.
Proof.
  split.
  - intros uf sigla H I.
    destruct (dict_get_key _ _ I) as [n G].
    exists n. split; [exact G|].
    rewrite (geojson_ok parse_uf w uf sigla n H G). split; reflexivity.
  - split; [reflexivity|]. split; [|repeat split].
    intros k n I.
    assert (C : forallb (fun kv => match dict_get (fst kv) mapping with
                                   | Some m => Z.eqb m (snd kv)
                                   | None => false
                                   end) mapping = true) by (vm_compute; reflexivity).
    rewrite forallb_forall in C. specialize (C _ I). cbn [fst snd] in C.
    destruct (dict_get k mapping) as [m|]; [|discriminate C].
    apply Z.eqb_eq in C. congruence.
Qed.

(** A run of C5 with the modelled resolver at a state name. *)
Lemma geojson_consulta_witness :
  parse.uf "santa catarina" false = Ok "SC" /\ In "SC" (keys mapping) /\
  exists n : Z,
    dict_get "SC" mapping = Some n /\
    let url := "https://raw.githubusercontent.com/tbrugz/geodata-br/master/geojson/geojs-"
               ++ str n ++ "-mun.json" in
    chamadas (geojson parse.uf mundo_exemplo "santa catarina")
    = [RequestsGetJson url] /\
    resultado (geojson parse.uf mundo_exemplo "santa catarina")
    = get_json_resp mundo_exemplo url.
Proof.
  assert (I : In "SC" (keys mapping)) by (apply in_list_In; reflexivity).
  split; [reflexivity|]. split; [exact I|].
  exact (proj1 (geojson_consulta string parse.uf mundo_exemplo)
           "santa catarina" "SC" eq_refl I).
Defined.

(** C6: [geojson] resolves its argument with extinct states not
    permitted: whatever the resolver, when it fails there, [geojson] fails
    with the resolver's error and calls no collaborator.  With the
    modelled resolver this is the case for every identifier that resolves
    to an extinct code when those are permitted, and so for ['GB'] and
    ['FN']. *)
Theorem geojson_rejeita_extintos (pyobj : Type) (w : Mundo pyobj) :
  (forall (parse_uf : string -> bool -> result string) (uf : string) (e : exn),
      parse_uf uf false = Err e -> geojson parse_uf w uf = ([], Err e)) /\
  (forall uf sigla : string,
      parse.uf uf true = Ok sigla -> In sigla ["FN"; "GB"] ->
      parse.uf uf false = Err (DAB_UFError uf) /\
      geojson parse.uf w uf = ([], Err (DAB_UFError uf))) /\
  geojson parse.uf w "GB" = ([], Err (DAB_UFError "GB")) /\
  geojson parse.uf w "FN" = ([], Err (DAB_UFError "FN")).
Proof.
  split; [intros parse_uf; exact (geojson_erro parse_uf w)|].
  split; [|split; reflexivity].
  intros uf sigla H I.
  pose proof (uf_extinta_rejeitada uf sigla H I) as R.
  split; [exact R | exact (geojson_erro parse.uf w uf _ R)].
Qed.

(** A run of C6 at the name of an extinct state. *)
Lemma geojson_rejeita_extintos_witness :
  parse.uf "Guanabara" true = Ok "GB" /\ In "GB" ["FN"; "GB"] /\
  parse.uf "Guanabara" false = Err (DAB_UFError "Guanabara") /\
  geojson parse.uf mundo_exemplo "Guanabara"
  = ([], Err (DAB_UFError "Guanabara")).
Proof.
  split; [reflexivity|]. split; [right; left; reflexivity|].
  apply (proj1 (proj2 (geojson_rejeita_extintos string mundo_exemplo))
           "Guanabara" "GB"); [reflexivity | right; left; reflexivity].
Defined.

(** C10: [mapping] has 28 entries whose numeric values are pairwise
    distinct; different codes have different numbers and different URLs,
    so, whatever the resolver, identifiers that resolve to different codes
    of [mapping] never fetch the same URL. *)
Theorem mapping_injetivo (pyobj : Type)
    (parse_uf : string -> bool -> result string) (w : Mundo pyobj) :
  List.length mapping = 28 /\
  NoDup (map snd mapping) /\
  (forall (s1 s2 : string) (n1 n2 : Z),
      dict_get s1 mapping = Some n1 -> dict_get s2 mapping = Some n2 ->
      s1 <> s2 -> n1 <> n2 /\ geojson_url n1 <> geojson_url n2) /\
  (forall uf1 uf2 s1 s2 : string,
      parse_uf uf1 false = Ok s1 -> parse_uf uf2 false = Ok s2 ->
      In s1 (keys mapping) -> In s2 (keys mapping) -> s1 <> s2 ->
      exists url1 url2 : string,
        chamadas (geojson parse_uf w uf1) = [RequestsGetJson url1] /\
        chamadas (geojson parse_uf w uf2) = [RequestsGetJson url2] /\
        url1 <> url2).
Proof.
  split; [reflexivity|]. split; [|split].
  - apply (NoDup_map_inv geojson_url). apply nodupb_NoDup.
    vm_compute. reflexivity.
  - intros s1 s2 n1 n2 G1 G2 N.
    pose proof (mapping_url_distinta s1 s2 n1 n2 G1 G2 N) as D.
    split; [|exact D]. intro E. apply D. rewrite E. reflexivity.
  - intros uf1 uf2 s1 s2 H1 H2 I1 I2 N.
    destruct (dict_get_key _ _ I1) as [n1 G1].
    destruct (dict_get_key _ _ I2) as [n2 G2].
    exists (geojson_url n1), (geojson_url n2).
    rewrite (geojson_ok parse_uf w uf1 s1 n1 H1 G1),
            (geojson_ok parse_uf w uf2 s2 n2 H2 G2).
    split; [reflexivity|]. split; [reflexivity|].
    exact (mapping_url_distinta s1 s2 n1 n2 G1 G2 N).
Qed.

(** Runs of C10: two neighbouring states in the table, and through
    [geojson] with the modelled resolver. *)
Lemma mapping_injetivo_witness :
  (dict_get "PR" mapping = Some 41%Z /\ dict_get "SC" mapping = Some 42%Z /\
   "PR" <> "SC" /\ 41%Z <> 42%Z /\ geojson_url 41 <> geojson_url 42) /\
  (parse.uf "Paraná" false = Ok "PR" /\ parse.uf "sc" false = Ok "SC" /\
   In "PR" (keys mapping) /\ In "SC" (keys mapping) /\
   exists url1 url2 : string,
     chamadas (geojson parse.uf mundo_exemplo "Paraná") = [RequestsGetJson url1] /\
     chamadas (geojson parse.uf mundo_exemplo "sc") = [RequestsGetJson url2] /\
     url1 <> url2).
Proof.
  assert (I1 : In "PR" (keys mapping)) by (apply in_list_In; reflexivity).
  assert (I2 : In "SC" (keys mapping)) by (apply in_list_In; reflexivity).
  assert (N : "PR" <> "SC") by discriminate.
  split.
  - split; [reflexivity|]. split; [reflexivity|]. split; [exact N|].
    exact (proj1 (proj2 (proj2 (mapping_injetivo string parse.uf mundo_exemplo)))
             "PR" "SC" 41%Z 42%Z eq_refl eq_refl N).
  - split; [reflexivity|]. split; [reflexivity|].
    split; [exact I1|]. split; [exact I2|].
    exact (proj2 (proj2 (proj2 (mapping_injetivo string parse.uf mundo_exemplo)))
             "Paraná" "sc" "PR" "SC" eq_refl eq_refl I1 I2 N).
Defined.

(** ** Time-series shortcuts *)

(** C8: each shortcut makes exactly one call, to its collaborator with its
    own fixed identifier and the caller's options as given, and returns
    the collaborator's answer: [ipca] 433, [selic] 432, [taxa_referencial]
    226 and [rentabilidade_poupanca] 195 on [bacen.serie]; [risco_brasil]
    the code [JPM366_EMBI366] and the caller's [index] on [ipea.serie]. *)
Theorem atalhos_identificador_fixo (pyobj : Type) (w : Mundo pyobj)
    (kw : kwargs pyobj) (index : bool) :
  ipca w kw = ([BacenSerie 433 kw], bacen_resp w 433 kw) /\
  selic w kw = ([BacenSerie 432 kw], bacen_resp w 432 kw) /\
  taxa_referencial w kw = ([BacenSerie 226 kw], bacen_resp w 226 kw) /\
  rentabilidade_poupanca w kw = ([BacenSerie 195 kw], bacen_resp w 195 kw) /\
  risco_brasil w index
  = ([IpeaSerie "JPM366_EMBI366" index], ipea_resp w "JPM366_EMBI366" index).
Proof. repeat split. Qed.

Lemma diarios_nao_mensal (x : string) :
  In x DIARIOS -> String.eqb x "mensal" = false.
Proof. intros [<-|[<-|[<-|[<-|[]]]]]; reflexivity. Qed.

(** C1, as the code has it: a [periodo] whose lower-casing is [mensal]
    goes to [bacen.serie] with 3546, one whose lower-casing is [diaria],
    [diario], [diário] or [diária] goes to [bacen.serie] with 13621, each
    with the caller's options; any other [periodo] raises the
    invalid-option error and calls no collaborator.  The message of that
    error names ['mensal'] and ['diaria']; the other three daily spellings
    do not occur in it. *)
Theorem reservas_internacionais_despacho (pyobj : Type)
    (lower : string -> string) (w : Mundo pyobj)
    (periodo : string) (kw : kwargs pyobj) :
  (lower periodo = "mensal" ->
   reservas_internacionais lower w periodo kw
   = ([BacenSerie 3546 kw], bacen_resp w 3546 kw)) /\
  (In (lower periodo) ["diaria"; "diario"; "diário"; "diária"] ->
   reservas_internacionais lower w periodo kw
   = ([BacenSerie 13621 kw], bacen_resp w 13621 kw)) /\
  (~ In (lower periodo) periodos_aceitos ->
   reservas_internacionais lower w periodo kw
   = ([], Err (ValueError reservas_msg))) /\
  lista_valores ["mensal"; "diaria"] reservas_msg = true /\
  (forall v : string,
      In v ["diario"; "diário"; "diária"] -> contem v reservas_msg = false).
Proof.
  unfold reservas_internacionais. repeat split.
  - intros ->. reflexivity.
  - intro I. rewrite (diarios_nao_mensal _ I).
    assert (I' : in_list (lower periodo) DIARIOS = true)
      by (apply in_list_In; exact I).
    rewrite I'. reflexivity.
  - intro N.
    destruct (String.eqb_spec (lower periodo) "mensal") as [E|_].
    { exfalso. apply N. left. symmetry. exact E. }
    destruct (in_list (lower periodo) DIARIOS) eqn:I; [|reflexivity].
    exfalso. apply N. right. apply in_list_In. exact I.
  - intros v [<-|[<-|[<-|[]]]]; vm_compute; reflexivity.
Qed.

(** Runs of the three cases of C1. *)
Lemma reservas_internacionais_despacho_witness :
  (lower_latin1 "Mensal" = "mensal" /\
   reservas_internacionais lower_latin1 mundo_exemplo "Mensal" []
   = ([BacenSerie 3546 []], bacen_resp mundo_exemplo 3546 [])) /\
  (In (lower_latin1 "DIÁRIO") ["diaria"; "diario"; "diário"; "diária"] /\
   reservas_internacionais lower_latin1 mundo_exemplo "DIÁRIO" []
   = ([BacenSerie 13621 []], bacen_resp mundo_exemplo 13621 [])) /\
  (~ In (lower_latin1 "anual") periodos_aceitos /\
   reservas_internacionais lower_latin1 mundo_exemplo "anual" []
   = ([], Err (ValueError reservas_msg))).
Proof.
  assert (D : In (lower_latin1 "DIÁRIO") ["diaria"; "diario"; "diário"; "diária"])
    by (right; right; left; reflexivity).
  assert (N : ~ In (lower_latin1 "anual") periodos_aceitos)
    by (intro I; apply in_list_In in I; discriminate I).
  split; [|split].
  - split; [reflexivity|].
    apply (proj1 (reservas_internacionais_despacho string lower_latin1
                    mundo_exemplo "Mensal" [])). reflexivity.
  - split; [exact D|].
    exact (proj1 (proj2 (reservas_internacionais_despacho string lower_latin1
                           mundo_exemplo "DIÁRIO" [])) D).
  - split; [exact N|].
    exact (proj1 (proj2 (proj2 (reservas_internacionais_despacho string
                                  lower_latin1 mundo_exemplo "anual" []))) N).
Defined.

(** C1 as stated fails at [periodo='anual']: the error raised there does
    not list the accepted values, since [diario] is accepted (it reaches
    [bacen.serie] with 13621) and does not occur in the message. *)
Lemma reservas_erro_nao_lista_aceitos :
  exists msg : string,
    reservas_internacionais lower_latin1 mundo_exemplo "anual" []
    = ([], Err (ValueError msg)) /\
    chamadas (reservas_internacionais lower_latin1 mundo_exemplo "diario" [])
    = [BacenSerie 13621 []] /\
    In "diario" periodos_aceitos /\
    contem "diario" msg = false /\
    lista_valores periodos_aceitos msg = false.
Proof.
  exists reservas_msg. split; [reflexivity|]. split; [reflexivity|].
  split; [right; right; left; reflexivity|].
  split; vm_compute; reflexivity.
Qed.

(** C2: a [tipo] whose lower-casing is [nominal], [real] or [ppc] goes to
    [ipea.serie] with the code [MTE12_SALMIN12], [GAC12_SALMINRE12] or
    [GAC12_SALMINDOL12] and the caller's [index]; two spellings with the
    same lower-casing behave alike, as ['real'] and ['REAL'] do; any other
    [tipo] raises the invalid-option error, whose message lists the three
    accepted values, and calls no collaborator. *)
Theorem salario_minimo_despacho (pyobj : Type) (lower : string -> string)
    (w : Mundo pyobj) (tipo : string) (index : bool) :
  (lower tipo = "nominal" ->
   salario_minimo lower w tipo index
   = ([IpeaSerie "MTE12_SALMIN12" index], ipea_resp w "MTE12_SALMIN12" index)) /\
  (lower tipo = "real" ->
   salario_minimo lower w tipo index
   = ([IpeaSerie "GAC12_SALMINRE12" index], ipea_resp w "GAC12_SALMINRE12" index)) /\
  (lower tipo = "ppc" ->
   salario_minimo lower w tipo index
   = ([IpeaSerie "GAC12_SALMINDOL12" index], ipea_resp w "GAC12_SALMINDOL12" index)) /\
  (~ In (lower tipo) tipos_aceitos ->
   salario_minimo lower w tipo index = ([], Err (ValueError salario_msg))) /\
  lista_valores tipos_aceitos salario_msg = true /\
  (forall tipo' : string,
      lower tipo' = lower tipo ->
      salario_minimo lower w tipo' index = salario_minimo lower w tipo index) /\
  salario_minimo lower_latin1 w "REAL" index
  = salario_minimo lower_latin1 w "real" index.
Proof.
  unfold salario_minimo. repeat split.
  - intros ->. reflexivity.
  - intros ->. reflexivity.
  - intros ->. reflexivity.
  - intro N.
    destruct (String.eqb_spec (lower tipo) "nominal") as [E|_].
    { exfalso. apply N. left. symmetry. exact E. }
    destruct (String.eqb_spec (lower tipo) "real") as [E|_].
    { exfalso. apply N. right. left. symmetry. exact E. }
    destruct (String.eqb_spec (lower tipo) "ppc") as [E|_].
    { exfalso. apply N. right. right. left. symmetry. exact E. }
    reflexivity.
  - intros tipo' ->. reflexivity.
Qed.

(** Runs of the four cases of C2. *)
Lemma salario_minimo_despacho_witness :
  (lower_latin1 "Nominal" = "nominal" /\
   salario_minimo lower_latin1 mundo_exemplo "Nominal" true
   = ([IpeaSerie "MTE12_SALMIN12" true],
      ipea_resp mundo_exemplo "MTE12_SALMIN12" true)) /\
  (lower_latin1 "REAL" = "real" /\
   salario_minimo lower_latin1 mundo_exemplo "REAL" false
   = ([IpeaSerie "GAC12_SALMINRE12" false],
      ipea_resp mundo_exemplo "GAC12_SALMINRE12" false)) /\
  (lower_latin1 "PPC" = "ppc" /\
   salario_minimo lower_latin1 mundo_exemplo "PPC" false
   = ([IpeaSerie "GAC12_SALMINDOL12" false],
      ipea_resp mundo_exemplo "GAC12_SALMINDOL12" false)) /\
  (~ In (lower_latin1 "bogus") tipos_aceitos /\
   salario_minimo lower_latin1 mundo_exemplo "bogus" false
   = ([], Err (ValueError salario_msg))).
Proof.
  assert (N : ~ In (lower_latin1 "bogus") tipos_aceitos)
    by (intro I; apply in_list_In in I; discriminate I).
  split; [|split; [|split]].
  - split; [reflexivity|].
    apply (proj1 (salario_minimo_despacho string lower_latin1
                    mundo_exemplo "Nominal" true)). reflexivity.
  - split; [reflexivity|].
    apply (proj1 (proj2 (salario_minimo_despacho string lower_latin1
                           mundo_exemplo "REAL" false))). reflexivity.
  - split; [reflexivity|].
    apply (proj1 (proj2 (proj2 (salario_minimo_despacho string lower_latin1
                                  mundo_exemplo "PPC" false)))). reflexivity.
  - split; [exact N|].
    exact (proj1 (proj2 (proj2 (proj2 (salario_minimo_despacho string
             lower_latin1 mundo_exemplo "bogus" false)))) N).
Defined.

(** ** [codigos_municipios] *)

Section Selecao.

Context {pyobj : Type}.

Lemma filter_ausente (df : DataFrame pyobj) (r : string) :
  count_occ string_dec (columns df) r = 0 ->
  filter (fun col => String.eqb (fst col) r) df = [].
Proof.
  induction df as [|[k c] df IH]; simpl; [reflexivity|].
  destruct (string_dec k r) as [->|N]; [discriminate|].
  intro H. apply String.eqb_neq in N. rewrite N. exact (IH H).
Qed.

(** A label carried by one column selects that column, cells included. *)
Lemma filter_unico (df : DataFrame pyobj) (r : string) :
  count_occ string_dec (columns df) r = 1 ->
  exists cells : list pyobj,
    filter (fun col => String.eqb (fst col) r) df = [(r, cells)] /\
    dict_get r df = Some cells.
Proof.
  induction df as [|[k c] df IH]; simpl; [discriminate|].
  destruct (string_dec k r) as [->|N].
  - intros [= H]. exists c. rewrite String.eqb_refl.
    rewrite (filter_ausente df r H). split; reflexivity.
  - intro H. destruct (IH H) as [cells [F G]]. exists cells.
    assert (N' : r <> k) by congruence.
    apply String.eqb_neq in N, N'. rewrite N, N'. split; assumption.
Qed.

Lemma count_occ_presente (l : list string) (r : string) :
  count_occ string_dec l r = 1 -> In r l.
Proof. intro H. apply (count_occ_In string_dec). lia. Qed.

Lemma selecao_ok (df : DataFrame pyobj) (rotulos : list string) :
  (forall r, In r rotulos -> count_occ string_dec (columns df) r = 1) ->
  exists df' : DataFrame pyobj,
    _pd.getitem_cols df rotulos = Ok df' /\
    columns df' = rotulos /\
    forall r, In r rotulos -> dict_get r df' = dict_get r df.
Proof.
  intro H. unfold _pd.getitem_cols.
  assert (F : filter (fun r => negb (in_list r (columns df))) rotulos = []).
  { induction rotulos as [|r0 rot IH]; simpl; [reflexivity|].
    assert (I : in_list r0 (columns df) = true).
    { apply in_list_In, count_occ_presente, H. left. reflexivity. }
    rewrite I. simpl. apply IH. intros r J. apply H. right. exact J. }
  rewrite F. eexists. split; [reflexivity|]. clear F.
  induction rotulos as [|r0 rot IH]; simpl; [split; [reflexivity | contradiction]|].
  destruct (filter_unico df r0 (H r0 (or_introl eq_refl))) as [cells [Fr Gr]].
  destruct (IH (fun r J => H r (or_intror J))) as [Hc Hg].
  rewrite Fr. simpl. split.
  - unfold columns in *. simpl. rewrite Hc. reflexivity.
  - intros r [<-|J].
    + rewrite String.eqb_refl. symmetry. exact Gr.
    + destruct (String.eqb_spec r r0) as [->|_].
      * symmetry. exact Gr.
      * exact (Hg r J).
Qed.

Lemma selecao_falta (df : DataFrame pyobj) (rotulos : list string) (r : string) :
  In r rotulos -> ~ In r (columns df) ->
  exists faltam : list string,
    In r faltam /\ _pd.getitem_cols df rotulos = Err (KeyError faltam).
Proof.
  intros I N. unfold _pd.getitem_cols.
  assert (J : In r (filter (fun r => negb (in_list r (columns df))) rotulos)).
  { apply filter_In. split; [exact I|].
    destruct (in_list r (columns df)) eqn:E; [|reflexivity].
    apply in_list_In in E. contradiction. }
  destruct (filter _ rotulos) as [|x l]; [contradiction|].
  exists (x :: l). split; [exact J | reflexivity].
Qed.

End Selecao.

(** C7, as the code has it: when the JSON table loader succeeds with a
    table in which each of the five labels names exactly one column,
    [codigos_municipios] returns, after that single call, a table whose
    columns are exactly [codigo_tse, codigo_ibge, nome_municipio, uf,
    capital] in that order, with the cells of the loaded columns, whatever
    other columns the loaded table has; when one of the five labels names
    no column of the loaded table, it raises a key error with that label
    instead. *)
Theorem codigos_municipios_colunas (pyobj : Type) (w : Mundo pyobj)
    (df : DataFrame pyobj) :
  read_json_resp w URL_municipios = Ok df ->
  ((forall r : string,
       In r colunas_municipios -> count_occ string_dec (columns df) r = 1) ->
   exists df' : DataFrame pyobj,
     codigos_municipios w = ([PdReadJson URL_municipios], Ok df') /\
     columns df'
     = ["codigo_tse"; "codigo_ibge"; "nome_municipio"; "uf"; "capital"] /\
     forall r : string,
       In r colunas_municipios -> dict_get r df' = dict_get r df) /\
  (forall r : string,
      In r colunas_municipios -> ~ In r (columns df) ->
      exists faltam : list string,
        In r faltam /\
        codigos_municipios w
        = ([PdReadJson URL_municipios], Err (KeyError faltam))).
Proof.
  intro L. split.
  - intro H. destruct (selecao_ok df colunas_municipios H) as [df' [S [C G]]].
    exists df'. split; [|split; assumption].
    cbv [codigos_municipios _pd.read_json bind lift]. rewrite L.
    fold colunas_municipios. rewrite S. reflexivity.
  - intros r I N.
    destruct (selecao_falta df colunas_municipios r I N) as [faltam [J S]].
    exists faltam. split; [exact J|].
    cbv [codigos_municipios _pd.read_json bind lift]. rewrite L.
    fold colunas_municipios. rewrite S. reflexivity.
Qed.

(** A run of C7 at a loaded table with the five columns out of order and
    two further columns. *)
Lemma codigos_municipios_colunas_witness :
  read_json_resp mundo_exemplo URL_municipios = Ok tabela_tse /\
  (forall r : string,
      In r colunas_municipios ->
      count_occ string_dec (columns tabela_tse) r = 1) /\
  exists df' : DataFrame string,
    codigos_municipios mundo_exemplo = ([PdReadJson URL_municipios], Ok df') /\
    columns df'
    = ["codigo_tse"; "codigo_ibge"; "nome_municipio"; "uf"; "capital"] /\
    forall r : string,
      In r colunas_municipios -> dict_get r df' = dict_get r tabela_tse.
Proof.
  assert (H : forall r : string,
             In r colunas_municipios ->
             count_occ string_dec (columns tabela_tse) r = 1)
    by (intros r [<-|[<-|[<-|[<-|[<-|[]]]]]]; reflexivity).
  split; [reflexivity|]. split; [exact H|].
  exact (proj1 (codigos_municipios_colunas string mundo_exemplo tabela_tse
                  eq_refl) H).
Defined.

(** C7 as stated fails when the loaded table lacks one of the five
    columns: the loader succeeds, and [codigos_municipios] raises a key
    error instead of returning a table. *)
Lemma codigos_municipios_sem_capital :
  read_json_resp mundo_sem_capital URL_municipios = Ok tabela_sem_capital /\
  codigos_municipios mundo_sem_capital
  = ([PdReadJson URL_municipios], Err (KeyError ["capital"])) /\
  ~ exists df' : DataFrame string,
      resultado (codigos_municipios mundo_sem_capital) = Ok df'.
Proof.
  split; [reflexivity|]. split; [reflexivity|].
  intros [df' E]. discriminate E.
Qed.

(** ** Outcomes of the functions, whatever the resolver *)

Section Desfechos.

Variable pyobj : Type.
Variable parse_uf : string -> bool -> result string.
Variable w : Mundo pyobj.

Lemma geojson_falta (uf sigla : string) :
  parse_uf uf false = Ok sigla -> dict_get sigla mapping = None ->
  geojson parse_uf w uf = ([], Err (KeyError [sigla])).
Proof.
  intros H G. cbv [geojson lift bind getitem]. rewrite H, G. reflexivity.
Qed.

(** What a successful [bandeira] tells about the resolver and the table. *)
Lemma bandeira_inv (uf : string) (t : Z) (u : string) :
  bandeira pyobj parse_uf uf t = ([], Ok u) ->
  exists sigla f : string,
    parse_uf uf true = Ok sigla /\
    dict_get sigla (bandeira_tabela t) = Some f /\ u = URL ++ f.
Proof.
  destruct (parse_uf uf true) as [sigla|e] eqn:H.
  - destruct (dict_get sigla (bandeira_tabela t)) as [f|] eqn:G.
    + rewrite (bandeira_ok pyobj parse_uf uf sigla t f H G).
      intros [= <-]. exists sigla, f. repeat split. exact G.
    + rewrite (bandeira_falta pyobj parse_uf uf sigla t H G). discriminate.
  - rewrite (bandeira_erro pyobj parse_uf uf t e H). discriminate.
Qed.

Lemma brasao_inv (uf : string) (t : Z) (u : string) :
  brasao pyobj parse_uf uf t = ([], Ok u) ->
  exists sigla f : string,
    parse_uf uf true = Ok sigla /\
    dict_get sigla (brasao_tabela t) = Some f /\ u = URL ++ f.
Proof.
  destruct (parse_uf uf true) as [sigla|e] eqn:H.
  - destruct (dict_get sigla (brasao_tabela t)) as [f|] eqn:G.
    + rewrite (brasao_ok pyobj parse_uf uf sigla t f H G).
      intros [= <-]. exists sigla, f. repeat split. exact G.
    + rewrite (brasao_falta pyobj parse_uf uf sigla t H G). discriminate.
  - rewrite (brasao_erro pyobj parse_uf uf t e H). discriminate.
Qed.

End Desfechos.

Lemma fora_das_tabelas (t : Z) (sigla : string) :
  ~ In sigla siglas_validas ->
  dict_get sigla (bandeira_tabela t) = None /\
  dict_get sigla (brasao_tabela t) = None.
Proof.
  intro N.
  assert (I : incl (keys (bandeira_tabela t)) siglas_validas)
    by (apply incl_forallb; reflexivity).
  assert (J : incl (keys (brasao_tabela t)) siglas_validas)
    by (apply incl_forallb; reflexivity).
  split; apply dict_get_none; intro K; apply N; [exact (I _ K) | exact (J _ K)].
Qed.

(** X1: every function of the module makes at most one call to a
    collaborator, whatever its arguments, the resolver and the
    collaborators' answers; [bandeira] and [brasao] make none. *)
Theorem uma_chamada_no_maximo (pyobj : Type) (lower : string -> string)
    (parse_uf : string -> bool -> result string) (w : Mundo pyobj)
    (uf periodo tipo : string) (tamanho : Z) (kw : kwargs pyobj)
    (index : bool) :
  Forall (fun n => n <= 1)
    [ List.length (chamadas (catalogo w));
      List.length (chamadas (geojson parse_uf w uf));
      List.length (chamadas (codigos_municipios w));
      List.length (chamadas (perfil_eleitorado w));
      List.length (chamadas (ipca w kw));
      List.length (chamadas (selic w kw));
      List.length (chamadas (taxa_referencial w kw));
      List.length (chamadas (rentabilidade_poupanca w kw));
      List.length (chamadas (reservas_internacionais lower w periodo kw));
      List.length (chamadas (risco_brasil w index));
      List.length (chamadas (salario_minimo lower w tipo index)) ] /\
  chamadas (bandeira pyobj parse_uf uf tamanho) = [] /\
  chamadas (brasao pyobj parse_uf uf tamanho) = [].
Proof.
  split; [|split].
  - repeat (apply Forall_cons; [|]); try apply Forall_nil;
      try (cbn; lia).
    + cbv [geojson lift bind getitem].
      destruct (parse_uf uf false) as [s|e]; [|cbn; lia].
      destruct (dict_get s mapping); cbn; lia.
    + cbv [codigos_municipios _pd.read_json bind lift].
      destruct (read_json_resp w URL_municipios); cbn; lia.
    + unfold reservas_internacionais.
      destruct (String.eqb _ _); [cbn; lia|].
      destruct (in_list _ _); cbn; lia.
    + unfold salario_minimo.
      repeat (destruct (String.eqb _ _); [cbn; lia|]). cbn. lia.
  - cbv [bandeira lift bind getitem ret].
    destruct (parse_uf uf true) as [s|e]; [|reflexivity].
    destruct (dict_get s (bandeira_tabela tamanho)); reflexivity.
  - cbv [brasao lift bind getitem ret].
    destruct (parse_uf uf true) as [s|e]; [|reflexivity].
    destruct (dict_get s (brasao_tabela tamanho)); reflexivity.
Qed.

(** X2: whatever the resolver, [geojson] fetches exactly when the resolver
    returns a key of [mapping]; when it returns a code that [mapping] does
    not have, as [FN] or [GB], the lookup raises a key error with that code
    and nothing is fetched. *)
Theorem geojson_desfecho (pyobj : Type)
    (parse_uf : string -> bool -> result string) (w : Mundo pyobj)
    (uf : string) :
  (forall sigla : string,
      parse_uf uf false = Ok sigla -> ~ In sigla (keys mapping) ->
      geojson parse_uf w uf = ([], Err (KeyError [sigla]))) /\
  (forall sigla : string,
      parse_uf uf false = Ok sigla -> In sigla ["FN"; "GB"] ->
      geojson parse_uf w uf = ([], Err (KeyError [sigla]))) /\
  ((exists url : string,
       chamadas (geojson parse_uf w uf) = [RequestsGetJson url])
   <-> exists sigla : string,
         parse_uf uf false = Ok sigla /\ In sigla (keys mapping)).
Proof.
  assert (F : forall sigla, parse_uf uf false = Ok sigla ->
                ~ In sigla (keys mapping) ->
                geojson parse_uf w uf = ([], Err (KeyError [sigla]))).
  { intros sigla H N.
    exact (geojson_falta pyobj parse_uf w uf sigla H (dict_get_none _ _ N)). }
  split; [exact F|]. split.
  - intros sigla H I. apply (F sigla H). intro K.
    destruct I as [<-|[<-|[]]]; apply in_list_In in K; discriminate K.
  - split.
    + intros [url E]. destruct (parse_uf uf false) as [sigla|e] eqn:H.
      * exists sigla. split; [reflexivity|].
        destruct (in_list sigla (keys mapping)) eqn:I;
          [apply in_list_In; exact I|].
        assert (N : ~ In sigla (keys mapping)).
        { intro K. apply in_list_In in K. congruence. }
        rewrite (F sigla eq_refl N) in E. discriminate E.
      * rewrite (geojson_erro parse_uf w uf e H) in E. discriminate E.
    + intros [sigla [H I]]. destruct (dict_get_key _ _ I) as [n G].
      exists (geojson_url n).
      rewrite (geojson_ok parse_uf w uf sigla n H G). reflexivity.
Qed.

(** A run of X2 with a resolver that permits extinct states. *)
Lemma geojson_desfecho_witness :
  resolver_permissivo "Guanabara" false = Ok "GB" /\
  ~ In "GB" (keys mapping) /\
  geojson resolver_permissivo mundo_exemplo "Guanabara"
  = ([], Err (KeyError ["GB"])).
Proof.
  assert (N : ~ In "GB" (keys mapping))
    by (intro K; apply in_list_In in K; discriminate K).
  split; [reflexivity|]. split; [exact N|].
  exact (proj1 (geojson_desfecho string resolver_permissivo mundo_exemplo
                  "Guanabara") "GB" eq_refl N).
Defined.

(** X3: whatever the resolver, [bandeira] and [brasao] return a URL
    exactly when the resolver returns one of the thirty state codes; a
    resolver error is passed on as it is, and a resolved code outside the
    thirty raises a key error with that code; so the two functions fail
    together, with the same error. *)
Theorem imagem_desfecho (pyobj : Type)
    (parse_uf : string -> bool -> result string) (uf : string) (t1 t2 : Z) :
  (forall e : exn,
      parse_uf uf true = Err e ->
      bandeira pyobj parse_uf uf t1 = ([], Err e) /\
      brasao pyobj parse_uf uf t2 = ([], Err e)) /\
  (forall sigla : string,
      parse_uf uf true = Ok sigla -> ~ In sigla siglas_validas ->
      bandeira pyobj parse_uf uf t1 = ([], Err (KeyError [sigla])) /\
      brasao pyobj parse_uf uf t2 = ([], Err (KeyError [sigla]))) /\
  ((exists u : string, bandeira pyobj parse_uf uf t1 = ([], Ok u))
   <-> exists sigla : string,
         parse_uf uf true = Ok sigla /\ In sigla siglas_validas) /\
  (forall e : exn,
      bandeira pyobj parse_uf uf t1 = ([], Err e)
      <-> brasao pyobj parse_uf uf t2 = ([], Err e)).
Proof.
  assert (E : forall e, parse_uf uf true = Err e ->
                bandeira pyobj parse_uf uf t1 = ([], Err e) /\
                brasao pyobj parse_uf uf t2 = ([], Err e)).
  { intros e H. split;
      [exact (bandeira_erro pyobj parse_uf uf t1 e H)
      |exact (brasao_erro pyobj parse_uf uf t2 e H)]. }
  assert (F : forall sigla, parse_uf uf true = Ok sigla ->
                ~ In sigla siglas_validas ->
                bandeira pyobj parse_uf uf t1 = ([], Err (KeyError [sigla])) /\
                brasao pyobj parse_uf uf t2 = ([], Err (KeyError [sigla]))).
  { intros sigla H N.
    destruct (fora_das_tabelas t1 sigla N) as [Gb _].
    destruct (fora_das_tabelas t2 sigla N) as [_ Gr].
    split; [exact (bandeira_falta pyobj parse_uf uf sigla t1 H Gb)
           |exact (brasao_falta pyobj parse_uf uf sigla t2 H Gr)]. }
  split; [exact E|]. split; [exact F|]. split.
  - split.
    + intros [u B].
      destruct (bandeira_inv pyobj parse_uf uf t1 u B) as [sigla [f [H [G _]]]].
      exists sigla. split; [exact H|].
      destruct (in_list sigla siglas_validas) eqn:I;
        [apply in_list_In; exact I|].
      assert (N : ~ In sigla siglas_validas).
      { intro K. apply in_list_In in K. congruence. }
      destruct (fora_das_tabelas t1 sigla N) as [Gb _]. congruence.
    + intros [sigla [H I]].
      destruct (validas_nas_tabelas t1 sigla I) as [[f G] _].
      exists (URL ++ f). exact (bandeira_ok pyobj parse_uf uf sigla t1 f H G).
  - intro e. destruct (parse_uf uf true) as [sigla|e'] eqn:H.
    + destruct (in_list sigla siglas_validas) eqn:I.
      * apply in_list_In in I.
        destruct (validas_nas_tabelas t1 sigla I) as [[fb Gb] _].
        destruct (validas_nas_tabelas t2 sigla I) as [_ [fr Gr]].
        rewrite (bandeira_ok pyobj parse_uf uf sigla t1 fb H Gb).
        rewrite (brasao_ok pyobj parse_uf uf sigla t2 fr H Gr).
        split; discriminate.
      * assert (N : ~ In sigla siglas_validas).
        { intro K. apply in_list_In in K. congruence. }
        destruct (F sigla eq_refl N) as [-> ->]. reflexivity.
    + destruct (E e' eq_refl) as [-> ->]. reflexivity.
Qed.

(** A run of X3 with the resolver that returns its input, at a code that
    is in neither table. *)
Lemma imagem_desfecho_witness :
  resolver_identidade "XX" true = Ok "XX" /\ ~ In "XX" siglas_validas /\
  bandeira string resolver_identidade "XX" 100 = ([], Err (KeyError ["XX"])) /\
  brasao string resolver_identidade "XX" 50 = ([], Err (KeyError ["XX"])).
Proof.
  assert (N : ~ In "XX" siglas_validas)
    by (intro K; apply in_list_In in K; discriminate K).
  split; [reflexivity|]. split; [exact N|].
  exact (proj1 (proj2 (imagem_desfecho string resolver_identidade "XX" 100 50))
           "XX" eq_refl N).
Defined.

(** ** What a URL of [bandeira] or [brasao] determines *)

Lemma length_append (a b : string) :
  String.length (a ++ b) = String.length a + String.length b.
Proof. induction a as [|x a IH]; simpl; [reflexivity | rewrite IH; reflexivity]. Qed.

Lemma append_inj_r (c : string) :
  forall a b : string, a ++ c = b ++ c -> a = b.
Proof.
  induction a as [|x a IH]; intros [|y b] E.
  - reflexivity.
  - exfalso. apply (f_equal String.length) in E.
    rewrite !length_append in E. simpl in E. lia.
  - exfalso. apply (f_equal String.length) in E.
    rewrite !length_append in E. simpl in E. lia.
  - simpl in E. injection E as -> E. rewrite (IH b E). reflexivity.
Qed.

Lemma to_int_nonnil (z : Z) :
  Z.to_int z <> Decimal.Pos Decimal.Nil /\ Z.to_int z <> Decimal.Neg Decimal.Nil.
Proof.
  destruct z as [|p|p]; simpl; split; intro H; try discriminate H;
    injection H as H; exact (DecimalPos.Unsigned.to_uint_nonnil p H).
Qed.

(** Different integers have different decimal renderings. *)
Lemma str_inj (a b : Z) : str a = str b -> a = b.
Proof.
  unfold str. intro E. apply (f_equal NilZero.int_of_string) in E.
  destruct (to_int_nonnil a) as [Pa Na]. destruct (to_int_nonnil b) as [Pb Nb].
  rewrite (NilZero.isi _ Pa Na), (NilZero.isi _ Pb Nb) in E.
  injection E as E. exact (DecimalZ.to_int_inj a b E).
Qed.

Lemma dict_get_Forall2 {V : Type} (P : V -> V -> Prop) (d1 d2 : dict V)
    (k : string) (v1 : V) :
  Forall2 (fun e1 e2 => fst e1 = fst e2 /\ P (snd e1) (snd e2)) d1 d2 ->
  dict_get k d1 = Some v1 ->
  exists v2 : V, dict_get k d2 = Some v2 /\ P v1 v2.
Proof.
  induction 1 as [|[k1 a] [k2 b] d1 d2 [K R] _ IH]; simpl; [discriminate|].
  simpl in K, R. subst k2. destruct (String.eqb k k1).
  - intros [= <-]. exists b. split; [reflexivity | exact R].
  - exact IH.
Qed.

Ltac par_entradas :=
  repeat (apply Forall2_cons;
          [ split; [reflexivity | eexists; eexists; split; reflexivity] | ]);
  apply Forall2_nil.

Lemma bandeira_tabela_par (t1 t2 : Z) :
  Forall2 (fun e1 e2 => fst e1 = fst e2 /\ mesmo_molde t1 t2 (snd e1) (snd e2))
    (bandeira_tabela t1) (bandeira_tabela t2).
Proof. unfold bandeira_tabela. par_entradas. Qed.

Lemma brasao_tabela_par (t1 t2 : Z) :
  Forall2 (fun e1 e2 => fst e1 = fst e2 /\ mesmo_molde t1 t2 (snd e1) (snd e2))
    (brasao_tabela t1) (brasao_tabela t2).
Proof. unfold brasao_tabela. par_entradas. Qed.

Lemma raizes_In (d : dict string) (k f : string) :
  dict_get k d = Some f -> In (k, raiz f) (raizes d).
Proof.
  intro G. apply dict_get_In in G.
  exact (in_map (fun kv => (fst kv, raiz (snd kv))) _ _ G).
Qed.

(** One fragment found in a table at two sizes comes from one key and one
    size. *)
Lemma fragmento_determina (d : Z -> dict string) :
  (forall t, raizes (d t) = raizes (d 0%Z)) ->
  chave_por_valor (raizes (d 0%Z)) = true ->
  (forall t1 t2,
      Forall2 (fun e1 e2 => fst e1 = fst e2 /\
                            mesmo_molde t1 t2 (snd e1) (snd e2)) (d t1) (d t2)) ->
  forall (s1 s2 : string) (t1 t2 : Z) (f : string),
    dict_get s1 (d t1) = Some f -> dict_get s2 (d t2) = Some f ->
    s1 = s2 /\ t1 = t2.
Proof.
  intros R C P s1 s2 t1 t2 f G1 G2.
  assert (E : s1 = s2).
  { apply (chave_por_valor_ok _ C s1 s2 (raiz f)).
    - rewrite <- (R t1). exact (raizes_In _ _ _ G1).
    - rewrite <- (R t2). exact (raizes_In _ _ _ G2). }
  split; [exact E|]. subst s2.
  destruct (dict_get_Forall2 _ _ _ s1 f (P t1 t2) G1)
    as [f2 [G2' [pre [pos [E1 E2]]]]].
  rewrite G2 in G2'. injection G2' as <-. rewrite E1 in E2.
  unfold fstring in E2. apply append_inj_l, append_inj_r in E2.
  exact (str_inj _ _ E2).
Qed.

(** X4: whatever the resolver, a URL returned by [bandeira] determines the
    resolved state code and the size: two calls that return the same URL
    resolved to the same code and had the same [tamanho].  The same holds
    for [brasao]. *)
Theorem url_determina_sigla_e_tamanho (pyobj : Type)
    (parse_uf : string -> bool -> result string)
    (uf1 uf2 s1 s2 : string) (t1 t2 : Z) (u : string) :
  parse_uf uf1 true = Ok s1 -> parse_uf uf2 true = Ok s2 ->
  (bandeira pyobj parse_uf uf1 t1 = ([], Ok u) ->
   bandeira pyobj parse_uf uf2 t2 = ([], Ok u) -> s1 = s2 /\ t1 = t2) /\
  (brasao pyobj parse_uf uf1 t1 = ([], Ok u) ->
   brasao pyobj parse_uf uf2 t2 = ([], Ok u) -> s1 = s2 /\ t1 = t2).
Proof.
  intros H1 H2. split; intros B1 B2.
  - destruct (bandeira_inv pyobj parse_uf uf1 t1 u B1) as [x1 [f1 [K1 [G1 E1]]]].
    destruct (bandeira_inv pyobj parse_uf uf2 t2 u B2) as [x2 [f2 [K2 [G2 E2]]]].
    rewrite H1 in K1. rewrite H2 in K2.
    injection K1 as <-. injection K2 as <-.
    rewrite E1 in E2. apply append_inj_l in E2. subst f2.
    exact (fragmento_determina bandeira_tabela bandeira_raizes eq_refl
             bandeira_tabela_par s1 s2 t1 t2 f1 G1 G2).
  - destruct (brasao_inv pyobj parse_uf uf1 t1 u B1) as [x1 [f1 [K1 [G1 E1]]]].
    destruct (brasao_inv pyobj parse_uf uf2 t2 u B2) as [x2 [f2 [K2 [G2 E2]]]].
    rewrite H1 in K1. rewrite H2 in K2.
    injection K1 as <-. injection K2 as <-.
    rewrite E1 in E2. apply append_inj_l in E2. subst f2.
    exact (fragmento_determina brasao_tabela brasao_raizes eq_refl
             brasao_tabela_par s1 s2 t1 t2 f1 G1 G2).
Qed.

(** A run of X4 with the modelled resolver: an abbreviation and a name of
    one state, at one size. *)
Lemma url_determina_sigla_e_tamanho_witness :
  parse.uf "rs" true = Ok "RS" /\
  parse.uf "Rio Grande do Sul" true = Ok "RS" /\
  bandeira string parse.uf "rs" 64
  = ([], Ok "https://upload.wikimedia.org/wikipedia/commons/thumb/6/63/Bandeira_do_Rio_Grande_do_Sul.svg/64px-Bandeira_do_Rio_Grande_do_Sul.svg.png") /\
  bandeira string parse.uf "Rio Grande do Sul" 64
  = ([], Ok "https://upload.wikimedia.org/wikipedia/commons/thumb/6/63/Bandeira_do_Rio_Grande_do_Sul.svg/64px-Bandeira_do_Rio_Grande_do_Sul.svg.png") /\
  "RS" = "RS" /\ 64%Z = 64%Z.
Proof.
  split; [reflexivity|]. split; [reflexivity|].
  split; [reflexivity|]. split; [reflexivity|].
  exact (proj1 (url_determina_sigla_e_tamanho string parse.uf
                  "rs" "Rio Grande do Sul" "RS" "RS" 64 64 _ eq_refl eq_refl)
           eq_refl eq_refl).
Defined.

Lemma raizes_disjuntas :
  forallb (fun r => negb (in_list r (map snd (raizes (brasao_tabela 0)))))
    (map snd (raizes (bandeira_tabela 0))) = true.
Proof. vm_compute. reflexivity. Qed.

Lemma raizes_valor (d : dict string) (k f : string) :
  dict_get k d = Some f -> In (raiz f) (map snd (raizes d)).
Proof. intro G. apply raizes_In in G. exact (in_map snd _ _ G). Qed.

(** X5: no URL is returned both by [bandeira] and by [brasao], whatever
    the resolvers, the identifiers and the sizes. *)
Theorem bandeira_brasao_disjuntas (pyobj : Type)
    (parse_uf parse_uf' : string -> bool -> result string)
    (uf1 uf2 : string) (t1 t2 : Z) (u : string) :
  bandeira pyobj parse_uf uf1 t1 = ([], Ok u) ->
  brasao pyobj parse_uf' uf2 t2 <> ([], Ok u).
Proof.
  intros B R.
  destruct (bandeira_inv pyobj parse_uf uf1 t1 u B) as [x1 [f1 [_ [G1 E1]]]].
  destruct (brasao_inv pyobj parse_uf' uf2 t2 u R) as [x2 [f2 [_ [G2 E2]]]].
  rewrite E1 in E2. apply append_inj_l in E2. subst f2.
  apply raizes_valor in G1, G2.
  rewrite bandeira_raizes in G1. rewrite brasao_raizes in G2.
  pose proof raizes_disjuntas as D. rewrite forallb_forall in D.
  specialize (D _ G1). apply in_list_In in G2. rewrite G2 in D. discriminate D.
Qed.

(** A run of X5 at one state and one size. *)
Lemma bandeira_brasao_disjuntas_witness :
  bandeira string parse.uf "SP" 100
  = ([], Ok "https://upload.wikimedia.org/wikipedia/commons/thumb/2/2b/Bandeira_do_estado_de_S%C3%A3o_Paulo.svg/100px-Bandeira_do_estado_de_S%C3%A3o_Paulo.svg.png") /\
  brasao string parse.uf "SP" 100
  <> ([], Ok "https://upload.wikimedia.org/wikipedia/commons/thumb/2/2b/Bandeira_do_estado_de_S%C3%A3o_Paulo.svg/100px-Bandeira_do_estado_de_S%C3%A3o_Paulo.svg.png").
Proof.
  split; [reflexivity|].
  exact (bandeira_brasao_disjuntas string parse.uf parse.uf "SP" "SP" 100 100 _
           eq_refl).
Defined.

(** ** Shape of the image URLs *)

Lemma termina_append (sufixo a b : string) :
  termina sufixo b = true -> termina sufixo (a ++ b) = true.
Proof.
  intro H. induction a as [|x a IH]; simpl; [exact H|].
  rewrite IH. apply orb_true_r.
Qed.

Lemma append_vazia (a : string) : a ++ EmptyString = a.
Proof. induction a as [|x a IH]; simpl; [reflexivity | rewrite IH; reflexivity]. Qed.

Ltac miniatura_entrada :=
  cbv beta; cbn [snd];
  lazymatch goal with
  | |- miniatura ?t (fstring ?pre ?t ?pos) =>
      let partes := eval vm_compute in (divide "/" pre) in
      lazymatch partes with
      | [?h; ?hh; ?arq; _] =>
          let ext := eval vm_compute in
                       (if termina ".svg" arq then ".png" else EmptyString) in
          exists h, hh, arq, ext;
          split; [reflexivity|]; split; [reflexivity|];
          split; [reflexivity|]; split; [reflexivity|];
          split; [reflexivity|];
          first [ left; split; reflexivity | right; split; reflexivity ]
      end
  end.

Ltac miniatura_entradas :=
  repeat (apply Forall_cons; [miniatura_entrada|]); apply Forall_nil.

Lemma bandeira_tabela_miniatura (t : Z) :
  Forall (fun kv => miniatura t (snd kv)) (bandeira_tabela t).
Proof. unfold bandeira_tabela. miniatura_entradas. Qed.

Lemma brasao_tabela_miniatura (t : Z) :
  Forall (fun kv => miniatura t (snd kv)) (brasao_tabela t).
Proof. unfold brasao_tabela. miniatura_entradas. Qed.

Lemma miniatura_png (t : Z) (f : string) :
  miniatura t f -> termina ".png" (URL ++ f) = true.
Proof.
  intros [h [hh [arq [ext [-> [_ [_ [_ [_ T]]]]]]]]].
  do 9 apply termina_append.
  destruct T as [[_ ->]|[T ->]].
  - apply termina_append. reflexivity.
  - rewrite append_vazia. exact T.
Qed.

Lemma dict_get_miniatura (t : Z) (d : dict string) (k f : string) :
  Forall (fun kv => miniatura t (snd kv)) d -> dict_get k d = Some f ->
  miniatura t f.
Proof.
  intros F G. apply dict_get_In in G. rewrite Forall_forall in F.
  exact (F _ G).
Qed.

(** X6: whatever the resolver, every URL that [bandeira] or [brasao]
    returns is the base URL followed by a thumbnail path of Wikimedia
    Commons for the requested size: a one-character directory, a
    two-character directory that starts with it, the file name, and the
    thumbnail name made of the size, [px-] and the same file name, with
    [.png] appended when the file is an SVG.  So every such URL ends in
    [.png]. *)
Theorem url_miniatura_png (pyobj : Type)
    (parse_uf : string -> bool -> result string)
    (uf : string) (tamanho : Z) (u : string) :
  (bandeira pyobj parse_uf uf tamanho = ([], Ok u) ->
   (exists f : string, u = URL ++ f /\ miniatura tamanho f) /\
   prefix "https://upload.wikimedia.org/wikipedia/commons/thumb/" u = true /\
   termina ".png" u = true) /\
  (brasao pyobj parse_uf uf tamanho = ([], Ok u) ->
   (exists f : string, u = URL ++ f /\ miniatura tamanho f) /\
   prefix "https://upload.wikimedia.org/wikipedia/commons/thumb/" u = true /\
   termina ".png" u = true).
Proof.
  assert (P : forall f : string,
             u = URL ++ f -> miniatura tamanho f ->
             (exists f : string, u = URL ++ f /\ miniatura tamanho f) /\
             prefix "https://upload.wikimedia.org/wikipedia/commons/thumb/" u
             = true /\
             termina ".png" u = true).
  { intros f E M. split; [exists f; split; assumption|]. subst u. split.
    - exact (prefix_append URL f).
    - exact (miniatura_png tamanho f M). }
  split; intro B.
  - destruct (bandeira_inv pyobj parse_uf uf tamanho u B) as [s [f [_ [G E]]]].
    apply (P f E).
    exact (dict_get_miniatura _ _ _ _ (bandeira_tabela_miniatura tamanho) G).
  - destruct (brasao_inv pyobj parse_uf uf tamanho u B) as [s [f [_ [G E]]]].
    apply (P f E).
    exact (dict_get_miniatura _ _ _ _ (brasao_tabela_miniatura tamanho) G).
Qed.

(** A run of X6 at a coat of arms whose file is a PNG, with size zero. *)
Lemma url_miniatura_png_witness :
  brasao string parse.uf "MT" 0
  = ([], Ok "https://upload.wikimedia.org/wikipedia/commons/thumb/0/04/Brasão_de_Mato_Grosso.png/0px-Brasão_de_Mato_Grosso.png") /\
  (exists f : string,
      "https://upload.wikimedia.org/wikipedia/commons/thumb/0/04/Brasão_de_Mato_Grosso.png/0px-Brasão_de_Mato_Grosso.png"
      = URL ++ f /\ miniatura 0 f) /\
  prefix "https://upload.wikimedia.org/wikipedia/commons/thumb/"
    "https://upload.wikimedia.org/wikipedia/commons/thumb/0/04/Brasão_de_Mato_Grosso.png/0px-Brasão_de_Mato_Grosso.png"
  = true /\
  termina ".png"
    "https://upload.wikimedia.org/wikipedia/commons/thumb/0/04/Brasão_de_Mato_Grosso.png/0px-Brasão_de_Mato_Grosso.png"
  = true.
Proof.
  split; [reflexivity|].
  exact (proj2 (url_miniatura_png string parse.uf "MT" 0 _) eq_refl).
Defined.

(** ** [codigos_municipios] and the other columns *)

Section Extras.

Context {pyobj : Type}.
Variable rotulos : list string.

Lemma so_rotulos_presente (df : DataFrame pyobj) (r : string) :
  In r rotulos ->
  in_list r (columns (so_rotulos rotulos df)) = in_list r (columns df).
Proof.
  intro I. apply in_list_In in I.
  induction df as [|[k c] df IH]; [reflexivity|].
  unfold so_rotulos, columns in *. simpl.
  destruct (in_list k rotulos) eqn:K; simpl.
  - rewrite IH. reflexivity.
  - rewrite IH. destruct (String.eqb_spec r k) as [->|_]; [congruence|].
    reflexivity.
Qed.

Lemma so_rotulos_filtra (df : DataFrame pyobj) (r : string) :
  In r rotulos ->
  filter (fun col => String.eqb (fst col) r) (so_rotulos rotulos df)
  = filter (fun col => String.eqb (fst col) r) df.
Proof.
  intro I. apply in_list_In in I.
  induction df as [|[k c] df IH]; [reflexivity|].
  unfold so_rotulos in *. simpl.
  destruct (in_list k rotulos) eqn:K; simpl.
  - rewrite IH. reflexivity.
  - rewrite IH. destruct (String.eqb_spec k r) as [->|_]; [congruence|].
    reflexivity.
Qed.

(** The selection of labels sees only the columns that carry one of
    them. *)
Lemma selecao_so_rotulos (df : DataFrame pyobj) :
  _pd.getitem_cols (so_rotulos rotulos df) rotulos = _pd.getitem_cols df rotulos.
Proof.
  unfold _pd.getitem_cols.
  assert (A : forall l, incl l rotulos ->
            filter (fun r => negb (in_list r (columns (so_rotulos rotulos df)))) l
            = filter (fun r => negb (in_list r (columns df))) l).
  { induction l as [|r l IH]; intro S; [reflexivity|]. simpl.
    rewrite (so_rotulos_presente df r (S r (or_introl eq_refl))).
    rewrite (IH (fun x J => S x (or_intror J))). reflexivity. }
  assert (B : forall l, incl l rotulos ->
            flat_map (fun r => filter (fun col => String.eqb (fst col) r)
                                 (so_rotulos rotulos df)) l
            = flat_map (fun r => filter (fun col => String.eqb (fst col) r) df) l).
  { induction l as [|r l IH]; intro S; [reflexivity|]. simpl.
    rewrite (so_rotulos_filtra df r (S r (or_introl eq_refl))).
    rewrite (IH (fun x J => S x (or_intror J))). reflexivity. }
  rewrite (A rotulos (incl_refl _)), (B rotulos (incl_refl _)). reflexivity.
Qed.

End Extras.

(** X7: [codigos_municipios] always makes its one call, the load of the
    fixed URL; a failure of the loader is returned as it is; and when the
    loader succeeds the outcome depends only on the columns of the loaded
    table that carry one of the five labels: two loaded tables that agree
    on those columns give the same outcome, be it a table or a key
    error. *)
Theorem codigos_municipios_ignora_extras (pyobj : Type) (w1 w2 : Mundo pyobj) :
  chamadas (codigos_municipios w1) = [PdReadJson URL_municipios] /\
  (forall e : exn,
      read_json_resp w1 URL_municipios = Err e ->
      resultado (codigos_municipios w1) = Err e) /\
  (forall df1 df2 : DataFrame pyobj,
      read_json_resp w1 URL_municipios = Ok df1 ->
      read_json_resp w2 URL_municipios = Ok df2 ->
      so_rotulos colunas_municipios df1 = so_rotulos colunas_municipios df2 ->
      codigos_municipios w1 = codigos_municipios w2).
Proof.
  split; [|split].
  - cbv [codigos_municipios _pd.read_json bind lift].
    destruct (read_json_resp w1 URL_municipios); reflexivity.
  - intros e H. cbv [codigos_municipios _pd.read_json bind lift].
    rewrite H. reflexivity.
  - intros df1 df2 H1 H2 E.
    cbv [codigos_municipios _pd.read_json bind lift]. rewrite H1, H2.
    fold colunas_municipios.
    rewrite <- (selecao_so_rotulos colunas_municipios df1).
    rewrite <- (selecao_so_rotulos colunas_municipios df2).
    rewrite E. reflexivity.
Qed.

(** A run of X7 at two loaded tables with different extra columns. *)
Lemma codigos_municipios_ignora_extras_witness :
  read_json_resp mundo_exemplo URL_municipios = Ok tabela_tse /\
  read_json_resp mundo_enxuto URL_municipios = Ok tabela_tse_enxuta /\
  so_rotulos colunas_municipios tabela_tse
  = so_rotulos colunas_municipios tabela_tse_enxuta /\
  codigos_municipios mundo_exemplo = codigos_municipios mundo_enxuto.
Proof.
  split; [reflexivity|]. split; [reflexivity|]. split; [reflexivity|].
  exact (proj2 (proj2 (codigos_municipios_ignora_extras string
                         mundo_exemplo mundo_enxuto))
           tabela_tse tabela_tse_enxuta eq_refl eq_refl eq_refl).
Defined.

(** ** The series behind the shortcuts *)

Section Series.

Context {pyobj : Type}.
Variable lower : string -> string.
Variable w : Mundo pyobj.

Lemma reservas_mensal (periodo : string) (kw : kwargs pyobj) :
  lower periodo = "mensal" ->
  reservas_internacionais lower w periodo kw = bacen.serie w 3546 kw.
Proof. unfold reservas_internacionais. intros ->. reflexivity. Qed.

Lemma reservas_diaria (periodo : string) (kw : kwargs pyobj) :
  In (lower periodo) DIARIOS ->
  reservas_internacionais lower w periodo kw = bacen.serie w 13621 kw.
Proof.
  unfold reservas_internacionais. intro I.
  rewrite (diarios_nao_mensal _ I).
  assert (I' : in_list (lower periodo) DIARIOS = true)
    by (apply in_list_In; exact I).
  rewrite I'. reflexivity.
Qed.

Lemma salario_codigo (tipo : string) (index : bool) :
  (lower tipo = "nominal" ->
   salario_minimo lower w tipo index = ipea.serie w "MTE12_SALMIN12" index) /\
  (lower tipo = "real" ->
   salario_minimo lower w tipo index = ipea.serie w "GAC12_SALMINRE12" index) /\
  (lower tipo = "ppc" ->
   salario_minimo lower w tipo index = ipea.serie w "GAC12_SALMINDOL12" index).
Proof. unfold salario_minimo. repeat split; intros ->; reflexivity. Qed.

End Series.

Ltac distintas :=
  repeat (apply NoDup_cons;
          [ let H := fresh "H" in
            cbn [In]; intro H;
            repeat (destruct H as [H|H]; [discriminate H|]); exact H | ]);
  apply NoDup_nil.

(** X8: no two shortcuts ask for the same series.  With one option bag,
    the calls of [ipca], [selic], [taxa_referencial],
    [rentabilidade_poupanca] and of [reservas_internacionais] for a monthly
    and for a daily period are six different calls; with one index flag,
    the calls of [risco_brasil] and of [salario_minimo] for its three
    accepted kinds are four different calls. *)
Theorem series_distintas (pyobj : Type) (lower : string -> string)
    (w : Mundo pyobj) (kw : kwargs pyobj) (index : bool)
    (mensal diario nominal real ppc : string) :
  lower mensal = "mensal" -> In (lower diario) DIARIOS ->
  lower nominal = "nominal" -> lower real = "real" -> lower ppc = "ppc" ->
  NoDup [ chamadas (ipca w kw); chamadas (selic w kw);
          chamadas (taxa_referencial w kw);
          chamadas (rentabilidade_poupanca w kw);
          chamadas (reservas_internacionais lower w mensal kw);
          chamadas (reservas_internacionais lower w diario kw) ] /\
  NoDup [ chamadas (risco_brasil w index);
          chamadas (salario_minimo lower w nominal index);
          chamadas (salario_minimo lower w real index);
          chamadas (salario_minimo lower w ppc index) ].
Proof.
  intros Hm Hd Hn Hr Hp.
  rewrite (reservas_mensal lower w mensal kw Hm).
  rewrite (reservas_diaria lower w diario kw Hd).
  rewrite (proj1 (salario_codigo lower w nominal index) Hn).
  rewrite (proj1 (proj2 (salario_codigo lower w real index)) Hr).
  rewrite (proj2 (proj2 (salario_codigo lower w ppc index)) Hp).
  split.
  - cbv [chamadas ipca selic taxa_referencial rentabilidade_poupanca
           bacen.serie fst]. distintas.
  - cbv [chamadas risco_brasil ipea.serie fst]. distintas.
Qed.

(** A run of X8 with mixed-case spellings. *)
Lemma series_distintas_witness :
  lower_latin1 "MENSAL" = "mensal" /\ In (lower_latin1 "Diária") DIARIOS /\
  lower_latin1 "Nominal" = "nominal" /\ lower_latin1 "REAL" = "real" /\
  lower_latin1 "PPC" = "ppc" /\
  NoDup [ chamadas (ipca mundo_exemplo []); chamadas (selic mundo_exemplo []);
          chamadas (taxa_referencial mundo_exemplo []);
          chamadas (rentabilidade_poupanca mundo_exemplo []);
          chamadas (reservas_internacionais lower_latin1 mundo_exemplo "MENSAL" []);
          chamadas (reservas_internacionais lower_latin1 mundo_exemplo "Diária" []) ] /\
  NoDup [ chamadas (risco_brasil mundo_exemplo false);
          chamadas (salario_minimo lower_latin1 mundo_exemplo "Nominal" false);
          chamadas (salario_minimo lower_latin1 mundo_exemplo "REAL" false);
          chamadas (salario_minimo lower_latin1 mundo_exemplo "PPC" false) ].
Proof.
  assert (D : In (lower_latin1 "Diária") DIARIOS)
    by (right; right; right; left; reflexivity).
  split; [reflexivity|]. split; [exact D|]. split; [reflexivity|].
  split; [reflexivity|]. split; [reflexivity|].
  exact (series_distintas string lower_latin1 mundo_exemplo [] false
           "MENSAL" "Diária" "Nominal" "REAL" "PPC"
           eq_refl D eq_refl eq_refl eq_refl).
Defined.
